(** * Bot-record service: the request handlers of [src/server.js] and
      [src/unnamed/part_000], embedded as state-passing programs.

    The repository holds three near-identical servers:
    - [ServerA]: first document of [src/server.js] (lines 1-187),
    - [ServerB]: second document of [src/server.js] (lines 188-330),
    - [PerUser]: [src/unnamed/part_000] (adds [userId] and the verify route).

    Module-level variables ([bots], [botCount], [userInfo]), the two JSON
    documents on disk, the console and the clock form one [world]; every
    handler is a computation in a state-and-exception monad over it.
    A request is processed to completion before the next one starts. *)

From Stdlib Require Import ZArith List String Ascii Bool Lia.
From Stdlib Require Import DecimalString DecimalZ.
Import ListNotations.

Local Open Scope string_scope.
Local Open Scope list_scope.
Local Open Scope Z_scope.

(** ** JavaScript values carried by requests and documents *)

(** The JSON values a request body or a document field can hold.  [JObj]
    stands for a plain object: always truthy, and never identical ([===])
    to an object obtained from another parse.  Arrays and fractional
    numbers are not represented. *)
Inductive json : Type :=
| JUndefined
| JNull
| JBool (b : bool)
| JNum (n : Z)
| JStr (s : string)
| JObj.

(** A JavaScript number as far as the handlers look at it: a double
    whose value is an integer (of finite magnitude), or [NaN]. *)
Inductive number : Type :=
| Num (z : Z)
| NaN.

Definition show_Z (z : Z) : string := NilEmpty.string_of_int (Z.to_int z).

Definition show_nat (n : nat) : string := show_Z (Z.of_nat n).

Definition show_number (x : number) : string :=
  match x with
  | Num z => show_Z z
  | NaN => "NaN"
  end.

(** [!v] is [negb (truthy v)]. *)
Definition truthy (v : json) : bool :=
  match v with
  | JUndefined | JNull => false
  | JBool b => b
  | JNum n => negb (n =? 0)
  | JStr s => negb (s =? "")%string
  | JObj => true
  end.

(** [a || b] on values. *)
Definition js_or (a b : json) : json := if truthy a then a else b.

(** [a === b], the second operand coming from a later parse. *)
Definition strict_eq (a b : json) : bool :=
  match a, b with
  | JUndefined, JUndefined => true
  | JNull, JNull => true
  | JBool x, JBool y => Bool.eqb x y
  | JNum x, JNum y => (x =? y)
  | JStr x, JStr y => (x =? y)%string
  | _, _ => false
  end.

(** Template-literal interpolation [`${v}`]. *)
Definition show_json (v : json) : string :=
  match v with
  | JUndefined => "undefined"
  | JNull => "null"
  | JBool true => "true"
  | JBool false => "false"
  | JNum n => show_Z n
  | JStr s => s
  | JObj => "[object Object]"
  end.

(** The integers on which the arithmetic of doubles is exact
    ([Number.isSafeInteger]). *)
Definition safe_integer (z : Z) : Prop := - 2 ^ 53 < z < 2 ^ 53.

(** An integer as a double holds it: below [2^53] in magnitude as it
    is, above that rounded to 53 significant bits, to the nearest and on
    a tie to the even one. *)
Definition round_double (z : Z) : Z :=
  let a := Z.abs z in
  if a <? 2 ^ 53 then z
  else
    let ulp := 2 ^ (Z.log2 a - 52) in
    let q := a / ulp in
    let r := a mod ulp in
    let q' :=
      if 2 * r <? ulp then q
      else if ulp <? 2 * r then q + 1
      else if Z.even q then q else q + 1 in
    Z.sgn z * (q' * ulp).

(** [x - 250] (the difference of two doubles, rounded), [x < 250],
    [isNaN(x)] and [x || 0] on numbers. *)
Definition num_sub (x : number) (k : Z) : number :=
  match x with
  | Num z => Num (round_double (z - k))
  | NaN => NaN
  end.

Definition num_lt (x : number) (k : Z) : bool :=
  match x with
  | Num z => z <? k
  | NaN => false
  end.

Definition isNaN (x : number) : bool :=
  match x with
  | Num _ => false
  | NaN => true
  end.

Definition num_or_zero (x : number) : number :=
  match x with
  | Num z => if z =? 0 then Num 0 else Num z
  | NaN => Num 0
  end.

(** [JSON.stringify] of a number field: [NaN] is written as [null]. *)
Definition json_of_number (x : number) : json :=
  match x with
  | Num z => JNum z
  | NaN => JNull
  end.

(** ** Data model *)

Definition instant := Z.

Record bot : Type := mkBot {
  id : string;
  username : json;
  status : string;
  createdAt : instant;
  verificationDeadline : instant;
  isPrivate : bool;
  userId : json
}.

Record user_info : Type := mkUserInfo {
  points : number;
  info_userId : json
}.

(** The three servers of the repository. *)
Inductive variant : Type := ServerA | ServerB | PerUser.

Definition maxBots : Z := 20.
Definition maxPrivateBots : nat := 5.

(** ** Disk *)

Inductive path : Type := bot_data_json | user_data_json.

(** What a document holds: nothing, text on which [fs.readFile] or
    [JSON.parse] throws, or a parsed value of the expected shape (an
    array of records, resp. an object).  A document that parses to
    something else ([null], a number, a string) is not represented. *)
Inductive file (A : Type) : Type :=
| Missing
| Corrupt
| Doc (a : A).
Arguments Missing {A}.
Arguments Corrupt {A}.
Arguments Doc {A} a.

Record user_doc : Type := mkUserDoc {
  doc_points : json;
  doc_userId : json
}.

Record disk : Type := mkDisk {
  bot_data : file (list bot);
  user_data : file user_doc
}.

Inductive content : Type :=
| BotsJson (l : list bot)
| UserJson (d : user_doc).

Definition path_of (c : content) : path :=
  match c with
  | BotsJson _ => bot_data_json
  | UserJson _ => user_data_json
  end.

(** One call of [fs.writeFile]: what was to be written and whether the
    call succeeded. *)
Record write : Type := mkWrite {
  written : content;
  succeeded : bool
}.

Definition store (c : content) (d : disk) : disk :=
  match c with
  | BotsJson l => mkDisk (Doc l) (user_data d)
  | UserJson u => mkDisk (bot_data d) (Doc u)
  end.

(** ** Console and responses *)

(** What a failed file operation throws. *)
Inductive exn : Type :=
| WriteFailed (p : path)
| ReadFailed (p : path).

Inductive log_entry : Type :=
| Log (s : string)
| LogError (s : string) (e : option exn).

Inductive body : Type :=
| ErrorBody (error : string)
| CreatedBody (message : string) (b : bot)
| MessageBody (message : string).

Record response : Type := mkResponse {
  code : Z;
  payload : body
}.

Record request : Type := mkRequest {
  req_username : json;
  req_isPrivate : json;
  req_userId : json
}.

(** ** The world *)

(** [fs_ok n] tells whether the [n]-th call of [fs.writeFile] succeeds
    (a failed call leaves the document as it was); [fs_trace] lists the
    calls made so far.  [clock n] is what the [n]-th reading of the
    clock ([Date.now()], [new Date()]) returns. *)
Record world : Type := mkWorld {
  bots : list bot;
  botCount : Z;
  userInfo : user_info;
  fs : disk;
  fs_ok : nat -> bool;
  fs_trace : list write;
  clock : nat -> Z;
  clock_reads : nat;
  console : list log_entry
}.

Definition set_bots (l : list bot) (w : world) : world :=
  mkWorld l (botCount w) (userInfo w) (fs w) (fs_ok w) (fs_trace w)
          (clock w) (clock_reads w) (console w).

Definition set_botCount (n : Z) (w : world) : world :=
  mkWorld (bots w) n (userInfo w) (fs w) (fs_ok w) (fs_trace w)
          (clock w) (clock_reads w) (console w).

Definition set_userInfo (u : user_info) (w : world) : world :=
  mkWorld (bots w) (botCount w) u (fs w) (fs_ok w) (fs_trace w)
          (clock w) (clock_reads w) (console w).

Definition set_points (p : number) (w : world) : world :=
  set_userInfo (mkUserInfo p (info_userId (userInfo w))) w.

Definition set_fs (d : disk) (t : list write) (w : world) : world :=
  mkWorld (bots w) (botCount w) (userInfo w) d (fs_ok w) t
          (clock w) (clock_reads w) (console w).

Definition set_clock_reads (n : nat) (w : world) : world :=
  mkWorld (bots w) (botCount w) (userInfo w) (fs w) (fs_ok w) (fs_trace w)
          (clock w) n (console w).

Definition set_console (c : list log_entry) (w : world) : world :=
  mkWorld (bots w) (botCount w) (userInfo w) (fs w) (fs_ok w) (fs_trace w)
          (clock w) (clock_reads w) c.

(** ** State-and-exception monad *)

Inductive result (A : Type) : Type :=
| Ok (a : A)
| Throw (e : exn).
Arguments Ok {A} a.
Arguments Throw {A} e.

Definition M (A : Type) : Type := world -> result A * world.

Definition ret {A} (a : A) : M A := fun w => (Ok a, w).

Definition throw {A} (e : exn) : M A := fun w => (Throw e, w).

Definition bind {A B} (m : M A) (k : A -> M B) : M B :=
  fun w =>
    match m w with
    | (Ok a, w') => k a w'
    | (Throw e, w') => (Throw e, w')
    end.

(** [try { m } catch (e) { h e }] *)
Definition try_catch {A} (m : M A) (h : exn -> M A) : M A :=
  fun w =>
    match m w with
    | (Ok a, w') => (Ok a, w')
    | (Throw e, w') => h e w'
    end.

Definition get : M world := fun w => (Ok w, w).

Definition modify (f : world -> world) : M unit := fun w => (Ok tt, f w).

Notation "x <- m ;; k" := (bind m (fun x => k))
  (at level 61, m at next level, right associativity).
Notation "m ;;; k" := (bind m (fun _ => k))
  (at level 61, right associativity).

Definition console_log (s : string) : M unit :=
  modify (fun w => set_console (console w ++ [Log s]) w).

Definition console_error (s : string) (e : option exn) : M unit :=
  modify (fun w => set_console (console w ++ [LogError s e]) w).

(** [Date.now()] / [new Date()]. *)
Definition date_now : M Z :=
  fun w => (Ok (clock w (clock_reads w)), set_clock_reads (S (clock_reads w)) w).

(** [await fs.writeFile(path, JSON.stringify(c, null, 2))] *)
Definition writeFile (c : content) : M unit :=
  fun w =>
    let ok := fs_ok w (List.length (fs_trace w)) in
    let t := fs_trace w ++ [mkWrite c ok] in
    if ok then (Ok tt, set_fs (store c (fs w)) t w)
    else (Throw (WriteFailed (path_of c)), set_fs (fs w) t w).

(** [await fs.access(path)] inside [fileExists]. *)
Definition fileExists (p : path) : M bool :=
  fun w =>
    let present :=
      match p with
      | bot_data_json =>
          match bot_data (fs w) with Missing => false | _ => true end
      | user_data_json =>
          match user_data (fs w) with Missing => false | _ => true end
      end in
    (Ok present, w).

(** [JSON.parse(await fs.readFile(path, 'utf8'))] for each document. *)
Definition read_bot_data : M (list bot) :=
  fun w =>
    match bot_data (fs w) with
    | Doc l => (Ok l, w)
    | _ => (Throw (ReadFailed bot_data_json), w)
    end.

Definition read_user_data : M user_doc :=
  fun w =>
    match user_data (fs w) with
    | Doc d => (Ok d, w)
    | _ => (Throw (ReadFailed user_data_json), w)
    end.

(** ** Saving (all three servers) *)

Definition saveBots : M unit :=
  try_catch
    (w <- get ;; writeFile (BotsJson (bots w)))
    (fun e => throw e).

(** [ServerA] and [ServerB] write [{ points: userInfo.points }];
    [PerUser] writes the whole [userInfo]. *)
Definition user_json (v : variant) (u : user_info) : user_doc :=
  match v with
  | PerUser => mkUserDoc (json_of_number (points u)) (info_userId u)
  | _ => mkUserDoc (json_of_number (points u)) JUndefined
  end.

Definition saveUserData (v : variant) : M unit :=
  try_catch
    (w <- get ;; writeFile (UserJson (user_json v (userInfo w))))
    (fun e => throw e).

(** ** POST /api/bots *)

Definition privateBots (l : list bot) : list bot :=
  filter (fun b => isPrivate b) l.

Definition userPrivateBots (u : json) (l : list bot) : list bot :=
  filter (fun b => isPrivate b && strict_eq (userId b) u) l.

Definition attempt_line (v : variant) (req : request) (w : world) : string :=
  ("Create bot attempt: Username=" ++ show_json (req_username req)
   ++ ", Private=" ++ show_json (req_isPrivate req)
   ++ match v with
      | PerUser => ", UserId=" ++ show_json (req_userId req)
      | _ => ""
      end
   ++ ", Points=" ++ show_number (points (userInfo w))
   ++ ", TotalBots=" ++ show_Z (botCount w)
   ++ ", PrivateBots=" ++ show_nat (List.length (privateBots (bots w))))%string.

Definition err_private : string := "Private bot checkbox must be checked.".
Definition err_username : string := "Please enter a username for the bot.".
Definition err_maxBots : string := "Maximum bot limit (20) reached!".
Definition err_maxPrivate (v : variant) : string :=
  match v with
  | PerUser => "Maximum private bot limit (5) reached for this user!"
  | _ => "Maximum private bot limit (5) reached!"
  end.
Definition err_points (p : number) : string :=
  ("Insufficient points! You need 250 points to create a private bot. Current points: "
   ++ show_number (num_or_zero p))%string.
Definition err_save_points : string := "Error saving points. Please try again.".
Definition err_save_bot : string := "Error saving bot. Please try again.".

Definition bad_request (msg : string) : response := mkResponse 400 (ErrorBody msg).
Definition server_error (msg : string) : response := mkResponse 500 (ErrorBody msg).

(** The object literal [const bot = { id: `bot_${Date.now()}`, ... }]:
    three readings of the clock, in the order of the fields. *)
Definition new_bot (v : variant) (req : request) : M bot :=
  t_id <- date_now ;;
  t_created <- date_now ;;
  t_deadline <- date_now ;;
  ret (mkBot ("bot_" ++ show_Z t_id)%string
             (req_username req)
             "Waiting for Verification"
             t_created
             (t_deadline + 24 * 60 * 60 * 1000)
             true
             match v with
             | PerUser => js_or (req_userId req) (JStr "guest")
             | _ => JUndefined
             end).

Definition saved_line (v : variant) (b : bot) : string :=
  ("Bot saved: " ++ show_json (username b) ++ ", Private: true"
   ++ match v with
      | PerUser => ", UserId: " ++ show_json (userId b)
      | _ => ""
      end)%string.

Definition created_message (b : bot) : string :=
  ("Bot " ++ show_json (username b)
   ++ " created successfully! 250 points deducted.")%string.

Definition createBot (v : variant) (req : request) : M response :=
  w <- get ;;
  console_log (attempt_line v req w) ;;;
  (* Validation 1: Private checkbox *)
  if negb (truthy (req_isPrivate req)) then ret (bad_request err_private)
  (* Validation 2: Username *)
  else if negb (truthy (req_username req)) then ret (bad_request err_username)
  (* Validation 3: Total bot limit *)
  else if botCount w >=? maxBots then ret (bad_request err_maxBots)
  (* Validation 4: Private bot limit *)
  else if (maxPrivateBots <=?
           List.length match v with
                       | PerUser => userPrivateBots (req_userId req) (bots w)
                       | _ => privateBots (bots w)
                       end)%nat
  then ret (bad_request (err_maxPrivate v))
  (* Validation 5: Points *)
  else if num_lt (points (userInfo w)) 250 || isNaN (points (userInfo w))
  then ret (bad_request (err_points (points (userInfo w))))
  else
    (* Deduct points *)
    let originalPoints := points (userInfo w) in
    modify (set_points (num_sub originalPoints 250)) ;;;
    failed <-
      try_catch
        (saveUserData v ;;;
         w1 <- get ;;
         console_log ("Points saved: " ++ show_number (points (userInfo w1)))%string ;;;
         ret None)
        (fun e =>
           modify (set_points originalPoints) ;;;
           console_error "Failed to save user data:" (Some e) ;;;
           ret (Some (server_error err_save_points))) ;;
    match failed with
    | Some r => ret r
    | None =>
        (* Create bot *)
        b <- new_bot v req ;;
        modify (fun w => set_bots (bots w ++ [b]) w) ;;;
        modify (fun w => set_botCount (botCount w + 1) w) ;;;
        try_catch
          (saveBots ;;;
           console_log (saved_line v b) ;;;
           ret (mkResponse 200 (CreatedBody (created_message b) b)))
          (fun e =>
             modify (fun w => set_bots (removelast (bots w)) w) ;;;
             modify (fun w => set_botCount (botCount w - 1) w) ;;;
             modify (set_points originalPoints) ;;;
             saveUserData v ;;;
             console_error "Failed to save bots:" (Some e) ;;;
             ret (server_error err_save_bot))
    end.

(** ** POST /api/bots/verify/:botId ([PerUser] only) *)

(** [bots.find(p)] returns a reference into the array; the reference is
    the position of the first element satisfying [p]. *)
Fixpoint find_ref (p : bot -> bool) (l : list bot) : option nat :=
  match l with
  | [] => None
  | b :: l' => if p b then Some O else option_map S (find_ref p l')
  end.

(** Assignment through a reference: [ref.field = ...]. *)
Fixpoint assign (n : nat) (f : bot -> bot) (l : list bot) : list bot :=
  match l, n with
  | [], _ => []
  | b :: l', O => f b :: l'
  | b :: l', S n' => b :: assign n' f l'
  end.

Definition set_status (s : string) (b : bot) : bot :=
  mkBot (id b) (username b) s (createdAt b) (verificationDeadline b)
        (isPrivate b) (userId b).

Definition verifyBot (botId : string) : M response :=
  w <- get ;;
  match find_ref (fun b => (id b =? botId)%string) (bots w) with
  | None => ret (mkResponse 404 (ErrorBody "Bot not found."))
  | Some r =>
      modify (fun w => set_bots (assign r (set_status "Verified") (bots w)) w) ;;;
      try_catch
        (saveBots ;;;
         w1 <- get ;;
         ret (mkResponse 200
                (MessageBody
                   ("Bot "
                    ++ match nth_error (bots w1) r with
                       | Some b => show_json (username b)
                       | None => "undefined"
                       end
                    ++ " verified.")%string)))
        (fun e =>
           console_error "Failed to save bots:" (Some e) ;;;
           ret (server_error "Error verifying bot."))
  end.

(** GET /api/user and GET /api/bots return the containers as they are. *)
Definition getUser : M user_info := w <- get ;; ret (userInfo w).
Definition getBots : M (list bot) := w <- get ;; ret (bots w).

(** ** Start-up: [initializeDataFiles] and [loadData] *)

(** [DATA_DIR] is taken at its default ['./'], so that
    [path.join(DATA_DIR, 'bot_data.json')] is ['bot_data.json']. *)
Definition botDataPath : string := "bot_data.json".
Definition userDataPath : string := "user_data.json".

Definition default_user_doc (v : variant) : user_doc :=
  match v with
  | PerUser => mkUserDoc (JNum 0) (JStr "guest")
  | _ => mkUserDoc (JNum 0) JUndefined
  end.

Definition default_userInfo (v : variant) : user_info :=
  match v with
  | PerUser => mkUserInfo (Num 0) (JStr "guest")
  | _ => mkUserInfo (Num 0) JUndefined
  end.

(** [ServerA] and [PerUser] only. *)
Definition initializeDataFiles (v : variant) : M unit :=
  has_bots <- fileExists bot_data_json ;;
  (if negb has_bots
   then console_log ("Creating bot_data.json at " ++ botDataPath)%string ;;;
        writeFile (BotsJson [])
   else ret tt) ;;;
  has_user <- fileExists user_data_json ;;
  (if negb has_user
   then console_log ("Creating user_data.json at " ++ userDataPath)%string ;;;
        writeFile (UserJson (default_user_doc v))
   else ret tt).

Definition load_bots : M unit :=
  botData <- read_bot_data ;;
  modify (set_bots botData) ;;;
  modify (fun w => set_botCount (Z.of_nat (List.length (bots w))) w) ;;;
  w <- get ;;
  console_log ("Loaded bots: Total=" ++ show_Z (botCount w)
               ++ ", Private=" ++ show_nat (List.length (privateBots (bots w))))%string.

Section Load.

(** [Number(s)] on a string [s] (ECMAScript's StringToNumber) is
    left to the runtime. *)
Variable StringToNumber : string -> number.

Definition Number (v : json) : number :=
  match v with
  | JUndefined => NaN
  | JNull => Num 0
  | JBool b => Num (if b then 1 else 0)
  | JNum n => Num n
  | JStr s => StringToNumber s
  | JObj => NaN
  end.

(** The parsed user document is an object (see [file]). *)
Definition load_user (v : variant) : M unit :=
  userData <- read_user_data ;;
  (* userInfo = JSON.parse(userData);
     userInfo.points = Number(userInfo.points) || 0; *)
  modify (set_userInfo
            (mkUserInfo (num_or_zero (Number (doc_points userData)))
                        (doc_userId userData))) ;;;
  match v with
  | PerUser =>
      modify (fun w =>
                set_userInfo
                  (mkUserInfo (points (userInfo w))
                              (js_or (info_userId (userInfo w)) (JStr "guest")))
                  w) ;;;
      w <- get ;;
      console_log ("Loaded user data: Points=" ++ show_number (points (userInfo w))
                   ++ ", UserId=" ++ show_json (info_userId (userInfo w)))%string
  | _ =>
      w <- get ;;
      console_log ("Loaded user data: Points="
                   ++ show_number (points (userInfo w)))%string
  end.

(** In the catch blocks [userInfo] is still an object: the only
    failures represented are those of [fs.readFile] and [JSON.parse],
    which happen before [userInfo] is assigned (see [file]). *)
Definition loadData (v : variant) : M unit :=
  match v with
  | ServerB =>
      try_catch load_bots
        (fun e =>
           console_error "Error loading bots:" (Some e) ;;;
           modify (set_bots []) ;;;
           modify (set_botCount 0)) ;;;
      try_catch (load_user v)
        (fun e =>
           console_error "Error loading user data:" (Some e) ;;;
           modify (set_points (Num 0)))
  | _ =>
      try_catch
        (initializeDataFiles v ;;;
         try_catch load_bots
           (fun e =>
              console_error "Error loading bot_data.json: " (Some e) ;;;
              modify (set_bots []) ;;;
              modify (set_botCount 0) ;;;
              writeFile (BotsJson []) ;;;
              console_log "Initialized empty bot_data.json due to load error") ;;;
         try_catch (load_user v)
           (fun e =>
              console_error "Error loading user_data.json: " (Some e) ;;;
              modify (set_userInfo (default_userInfo v)) ;;;
              writeFile (UserJson (default_user_doc v)) ;;;
              console_log "Initialized empty user_data.json due to load error"))
        (fun e =>
           console_error "Error initializing data files: " (Some e) ;;;
           throw e)
  end.

End Load.

(** The module-level initialisers: [let bots = []; let botCount = 0;
    let userInfo = { points: 0 }] (with [userId: 'guest'] in [PerUser]). *)
Definition boot (v : variant) (d : disk) (ok : nat -> bool) (clk : nat -> Z)
  : world :=
  mkWorld [] 0 (default_userInfo v) d ok [] clk 0%nat [].

(** ** Requests processed one after the other *)

Definition after {A} (m : M A) (w : world) : world := snd (m w).

Definition outcome {A} (m : M A) (w : world) : result A := fst (m w).

Definition run (v : variant) (reqs : list request) (w : world) : world :=
  fold_left (fun w r => after (createBot v r) w) reqs w.

(** ** The validation chain as an ordered list of checks *)

Inductive check : Type :=
| PrivateFlag
| Username
| GlobalCapacity
| PrivateQuota
| Balance.

(** Whether a check rejects the request in the given state. *)
Definition rejects (v : variant) (w : world) (req : request) (c : check) : bool :=
  match c with
  | PrivateFlag => negb (truthy (req_isPrivate req))
  | Username => negb (truthy (req_username req))
  | GlobalCapacity => maxBots <=? botCount w
  | PrivateQuota =>
      match v with
      | PerUser =>
          (maxPrivateBots <=?
           List.length (userPrivateBots (req_userId req) (bots w)))%nat
      | _ => (maxPrivateBots <=? List.length (privateBots (bots w)))%nat
      end
  | Balance => num_lt (points (userInfo w)) 250 || isNaN (points (userInfo w))
  end.

Definition check_order : list check :=
  [PrivateFlag; Username; GlobalCapacity; PrivateQuota; Balance].

(** The earliest check, in [check_order], that rejects the request. *)
Definition first_rejection (v : variant) (w : world) (req : request)
  : option check :=
  find (rejects v w req) check_order.

Definition error_of (v : variant) (w : world) (c : check) : string :=
  match c with
  | PrivateFlag => err_private
  | Username => err_username
  | GlobalCapacity => err_maxBots
  | PrivateQuota => err_maxPrivate v
  | Balance => err_points (points (userInfo w))
  end.

Definition validated (v : variant) (w : world) (req : request) : Prop :=
  first_rejection v w req = None.

(** The state once the handler has logged its first line. *)
Definition logged_attempt (v : variant) (req : request) (w : world) : world :=
  set_console (console w ++ [Log (attempt_line v req w)]) w.

(** ** Vocabulary of the statements *)

(** [write_ok w k]: the [k]-th call of [fs.writeFile] from now on
    succeeds. *)
Definition write_ok (w : world) (k : nat) : bool :=
  fs_ok w (k + List.length (fs_trace w))%nat.

(** The user-info document the handler tries to write after deducting. *)
Definition deducted_doc (v : variant) (w : world) : user_doc :=
  user_json v (mkUserInfo (num_sub (points (userInfo w)) 250)
                          (info_userId (userInfo w))).

(** The record a validated request builds from the next three readings
    of the clock. *)
Definition built_bot (v : variant) (req : request) (w : world) : bot :=
  mkBot ("bot_" ++ show_Z (clock w (clock_reads w)))%string
        (req_username req)
        "Waiting for Verification"
        (clock w (S (clock_reads w)))
        (clock w (S (S (clock_reads w))) + 24 * 60 * 60 * 1000)
        true
        match v with
        | PerUser => js_or (req_userId req) (JStr "guest")
        | _ => JUndefined
        end.

(** The console line after the user-info write succeeded. *)
Definition points_saved_line (v : variant) (w : world) : log_entry :=
  Log ("Points saved: " ++ show_number (num_sub (points (userInfo w)) 250))%string.

(** The predicate [b => b.id === botId] of the verify route. *)
Definition has_id (botId : string) (b : bot) : bool := (id b =? botId)%string.

(** The message of a successful verify. *)
Definition verified_message (b : bot) : string :=
  ("Bot " ++ show_json (username b) ++ " verified.")%string.

(** [botCount === bots.length]. *)
Definition count_matches (w : world) : Prop :=
  botCount w = Z.of_nat (List.length (bots w)).

(** The user info [load_user] builds from a parsed document. *)
Definition parsed_userInfo (S2N : string -> number) (v : variant) (d : user_doc)
  : user_info :=
  mkUserInfo (num_or_zero (Number S2N (doc_points d)))
             match v with
             | PerUser => js_or (doc_userId d) (JStr "guest")
             | _ => doc_userId d
             end.

(** The servers whose [loadData] rewrites a document it could not read. *)
Definition self_healing (v : variant) : Prop := v <> ServerB.

(** [`bot_${t}`]. *)
Definition bot_id (t : Z) : string := ("bot_" ++ show_Z t)%string.


(** The HTTP status of the response, if the handler produced one. *)
Definition status_code (r : result response) : option Z :=
  match r with
  | Ok r => Some (code r)
  | Throw _ => None
  end.

(** ** Worlds and requests used as examples *)

(** [{ username: 'alice', isPrivate: true }], without [userId]. *)
Definition alice : request := mkRequest (JStr "alice") (JBool true) JUndefined.

Definition empty_disk : disk := mkDisk (Doc []) (Doc (mkUserDoc (JNum 0) JUndefined)).

(** A world right after start-up whose balance is [p]. *)
Definition funded (v : variant) (p : Z) (ok : nat -> bool) (clk : nat -> Z)
  : world :=
  set_points (Num p) (boot v empty_disk ok clk).

(** The writes of the failing run: the first succeeds, all later ones
    fail. *)
Definition first_write_only (n : nat) : bool := Nat.eqb n 0.

(** A record as a creation leaves it, and a world holding one. *)
Definition waiting (i : string) : bot :=
  mkBot i (JStr "alice") "Waiting for Verification" 1 2 true (JStr "guest").

Definition one_bot (ok : nat -> bool) : world :=
  set_botCount 1 (set_bots [waiting "bot_7"] (boot PerUser empty_disk ok (fun _ => 7))).

(** A stand-in for the runtime's string-to-number conversion, for
    examples whose documents hold no string in [points]. *)
Definition no_numeric_strings (s : string) : number := NaN.

(** Six readings of the clock fall into each millisecond. *)
Definition coarse_clock (n : nat) : Z := 1700000000000 + Z.of_nat (n / 6).

(** Every reading of the clock is one millisecond later. *)
Definition ticking_clock (n : nat) : Z := 1700000000000 + Z.of_nat n.

(** ** The process: start-up and the routes *)

(** [PORT] is taken at its default. *)
Definition PORT : Z := 3001.

Inductive process : Type :=
| Listening (w : world)
| Exited (exit_code : Z) (w : world).

(** [loadData().then(() => { ...routes...; app.listen(PORT, ...) })
      .catch(error => { console.error(...); process.exit(1); })]
    of [ServerA] and [PerUser]. *)
Definition startServer (S2N : string -> number) (v : variant) (w : world)
  : process :=
  match loadData S2N v w with
  | (Ok _, w') =>
      Listening
        (after (console_log ("Backend running on port " ++ show_Z PORT)%string) w')
  | (Throw e, w') =>
      Exited 1 (after (console_error "Failed to initialize server:" (Some e)) w')
  end.

(** The requests [PerUser] serves. *)
Inductive call : Type :=
| PostBots (req : request)
| PostVerify (botId : string)
| GetUser
| GetBots.

Definition handle (c : call) (w : world) : world :=
  match c with
  | PostBots req => after (createBot PerUser req) w
  | PostVerify botId => after (verifyBot botId) w
  | GetUser => after getUser w
  | GetBots => after getBots w
  end.

Definition session (calls : list call) (w : world) : world :=
  fold_left (fun w c => handle c w) calls w.

(** ** Further vocabulary *)

(** Both documents hold what [saveBots] and [saveUserData] would write
    from the memory. *)
Definition synced (v : variant) (w : world) : Prop :=
  bot_data (fs w) = Doc (bots w) /\
  user_data (fs w) = Doc (user_json v (userInfo w)).

(** [b'] is [b] with, at most, another status. *)
Definition same_record (b b' : bot) : Prop :=
  id b' = id b /\
  username b' = username b /\
  createdAt b' = createdAt b /\
  verificationDeadline b' = verificationDeadline b /\
  isPrivate b' = isPrivate b /\
  userId b' = userId b.

(** [b'] is [b] left alone or verified. *)
Definition evolved (b b' : bot) : Prop :=
  same_record b b' /\ (status b' = status b \/ status b' = "Verified").

(** A record as [createBot] makes it. *)
Definition fresh_record (b : bot) : Prop :=
  isPrivate b = true /\
  status b = "Waiting for Verification" /\
  truthy (username b) = true.

(** A state in which the capacity, the single-user quota or the balance
    rejects every request. *)
Definition exhausted (v : variant) (w : world) : Prop :=
  maxBots <= botCount w \/
  (v <> PerUser /\ (maxPrivateBots <= List.length (privateBots (bots w)))%nat) \/
  num_lt (points (userInfo w)) 250 = true \/
  isNaN (points (userInfo w)) = true.

(** A value that is not an object: a string, a number, a boolean,
    [null] or [undefined]. *)
Definition primitive (v : json) : bool :=
  match v with
  | JObj => false
  | _ => true
  end.

(** Whether two values name the same user: identical primitives, or
    two objects. *)
Definition same_user (a b : json) : bool :=
  match a, b with
  | JObj, JObj => true
  | _, _ => strict_eq a b
  end.

(** The private records of user [u]. *)
Definition owned_by (u : json) (l : list bot) : list bot :=
  filter (fun b => isPrivate b && same_user (userId b) u) l.

(** Calls of [fs.writeFile] as (document, success). *)
Definition write_kinds (l : list write) : list (path * bool) :=
  map (fun x => (path_of (written x), succeeded x)) l.

(** The clock never goes backwards. *)
Definition monotone (clk : nat -> Z) : Prop :=
  forall i j, (i <= j)%nat -> clk i <= clk j.

Definition day : Z := 24 * 60 * 60 * 1000.

(** A named user, a request of hers, and two records with one id. *)
Definition ann : json := JStr "ann".

Definition by_ann : request := mkRequest (JStr "bot") (JBool true) ann.

Definition twin (s : string) : bot :=
  mkBot "bot_7" (JStr "twin") s 3 4 true (JStr "guest").

Definition twins (ok : nat -> bool) : world :=
  set_botCount 2
    (set_bots [waiting "bot_7"; twin "Waiting for Verification"]
       (boot PerUser empty_disk ok (fun _ => 7))).

(** * Proofs *)

(** ** Symbolic execution *)

Ltac unfold_m :=
  cbv beta iota zeta delta
    [after outcome bind ret throw try_catch get modify console_log
     console_error date_now writeFile saveBots saveUserData new_bot
     fileExists read_bot_data read_user_data].

Lemma geb_leb (a b : Z) : (a >=? b) = (b <=? a).
Proof. apply Z.geb_leb. Qed.

Lemma createBot_rejected v req w c :
  first_rejection v w req = Some c ->
  createBot v req w = (Ok (bad_request (error_of v w c)), logged_attempt v req w).
Proof.
  unfold first_rejection, check_order, createBot. cbn [find rejects].
  repeat (unfold_m; cbn [fst snd]). cbn [bots botCount userInfo].
  rewrite geb_leb.
  destruct (negb (truthy (req_isPrivate req))).
  { intros [= <-]. reflexivity. }
  destruct (negb (truthy (req_username req))).
  { intros [= <-]. reflexivity. }
  destruct (maxBots <=? botCount w).
  { intros [= <-]. reflexivity. }
  destruct v;
    match goal with
    | |- context [ (maxPrivateBots <=? ?n)%nat ] =>
        destruct (maxPrivateBots <=? n)%nat
    end;
    try (intros [= <-]; reflexivity);
    (destruct (num_lt (points (userInfo w)) 250 || isNaN (points (userInfo w)));
     [ intros [= <-]; reflexivity | discriminate ]).
Qed.

Lemma validated_inv v w req :
  validated v w req ->
  truthy (req_isPrivate req) = true /\
  truthy (req_username req) = true /\
  (botCount w >=? maxBots) = false /\
  (maxPrivateBots <=?
     List.length match v with
                 | PerUser => userPrivateBots (req_userId req) (bots w)
                 | _ => privateBots (bots w)
                 end)%nat = false /\
  (num_lt (points (userInfo w)) 250 || isNaN (points (userInfo w))) = false.
Proof.
  unfold validated, first_rejection, check_order. cbn [find rejects].
  rewrite geb_leb.
  destruct (truthy (req_isPrivate req)); cbn [negb]; [|discriminate].
  destruct (truthy (req_username req)); cbn [negb]; [|discriminate].
  destruct (maxBots <=? botCount w); [discriminate|].
  destruct v;
    match goal with
    | |- context [ (maxPrivateBots <=? ?n)%nat ] =>
        destruct (maxPrivateBots <=? n)%nat
    end; try discriminate;
    (destruct (num_lt (points (userInfo w)) 250 || isNaN (points (userInfo w)));
     [ discriminate | auto ]).
Qed.

Ltac wred :=
  cbv beta iota zeta delta
    [bots botCount userInfo fs fs_ok fs_trace clock clock_reads console
     set_bots set_botCount set_userInfo set_points set_fs set_clock_reads
     set_console points info_userId fst snd negb write_ok Nat.add
     logged_attempt] in *.

Ltac step := repeat (unfold_m; wred); rewrite ?last_length.

(** Opens a world into its fields and brings the handler to the point
    where the five checks have passed. *)
Ltac enter V w :=
  let H1 := fresh "Hpriv" in
  let H2 := fresh "Hname" in
  let H3 := fresh "Hcap" in
  let H4 := fresh "Hquota" in
  let H5 := fresh "Hbal" in
  destruct (validated_inv _ _ _ V) as (H1 & H2 & H3 & H4 & H5);
  destruct w as [bs n [p uid] d ok tr clk rd con];
  unfold createBot; step;
  rewrite H1, H2, H3, H4, H5; step.

Lemma find_first {A} (f : A -> bool) (l : list A) (a : A) :
  find f l = Some a ->
  exists pre post,
    l = pre ++ a :: post /\ f a = true /\ forall x, In x pre -> f x = false.
Proof.
  induction l as [|x l IH]; cbn [find]; [discriminate|].
  destruct (f x) eqn:E.
  - intros [= ->]. exists [], l. repeat split; auto. intros ? [].
  - intros H. destruct (IH H) as (pre & post & -> & Ha & Hpre).
    exists (x :: pre), post. repeat split; auto.
    intros y [<-|Hy]; auto.
Qed.

(** ** Validation (C6) *)

(** C6. When some check rejects a createBot request, the response is the
    400 error of the earliest rejecting check in the order private flag,
    username, global capacity, private-bot quota, balance (every check
    before it accepts), and the handler has done nothing but log its
    first line: the bot list, the bot count, the user info, the disk and
    the list of file writes are exactly as before.  A request that no
    check rejects is never answered with 400. *)
Theorem createBot_validation_order :
  forall v req w,
    (forall c,
        first_rejection v w req = Some c ->
        outcome (createBot v req) w = Ok (bad_request (error_of v w c)) /\
        (exists pre post,
            check_order = pre ++ c :: post /\
            rejects v w req c = true /\
            forall c', In c' pre -> rejects v w req c' = false) /\
        after (createBot v req) w = logged_attempt v req w /\
        bots (after (createBot v req) w) = bots w /\
        botCount (after (createBot v req) w) = botCount w /\
        userInfo (after (createBot v req) w) = userInfo w /\
        fs (after (createBot v req) w) = fs w /\
        fs_trace (after (createBot v req) w) = fs_trace w) /\
    (validated v w req ->
     forall r, outcome (createBot v req) w = Ok r -> code r <> 400).
Proof.
  intros v req w. split.
  - intros c Hc. unfold outcome, after.
    rewrite (createBot_rejected _ _ _ _ Hc). cbn [fst snd].
    split; [reflexivity|]. split; [exact (find_first _ _ _ Hc)|].
    repeat split.
  - intros V r. unfold outcome.
    enter V w.
    destruct (ok (List.length tr)); step.
    + destruct (ok (S (List.length tr))); step.
      * intros [= <-]. discriminate.
      * destruct (ok (S (S (List.length tr)))); step.
        -- intros [= <-]. discriminate.
        -- discriminate.
    + intros [= <-]. discriminate.
Qed.

(** At 100 points and with an empty user name, the user-name error is
    returned although the balance check would reject as well. *)
Lemma createBot_validation_order_witness :
  outcome (createBot ServerA (mkRequest (JStr "") (JBool true) JUndefined))
          (set_points (Num 100)
             (boot ServerA (mkDisk (Doc []) Missing) (fun _ => true) (fun _ => 0)))
  = Ok (bad_request err_username).
Proof.
  apply (proj1 (createBot_validation_order ServerA
                  (mkRequest (JStr "") (JBool true) JUndefined)
                  (set_points (Num 100)
                     (boot ServerA (mkDisk (Doc []) Missing)
                        (fun _ => true) (fun _ => 0))))
               Username).
  reflexivity.
Defined.

(** ** The two writes of a validated request (C5, C4, C1, C2) *)

(** C5. When the checks pass and the write of the user-info document
    fails, the request is answered 500 "Error saving points", the user
    info (so the points) is what it was before the deduction, the bot
    list and count are untouched, no clock reading was taken for a new
    record, and the only call of [fs.writeFile] made is the failed one:
    nothing is written for the restore and the disk is unchanged. *)
Theorem createBot_points_save_failure :
  forall v req w,
    validated v w req ->
    write_ok w 0 = false ->
    outcome (createBot v req) w = Ok (server_error err_save_points) /\
    userInfo (after (createBot v req) w) = userInfo w /\
    bots (after (createBot v req) w) = bots w /\
    botCount (after (createBot v req) w) = botCount w /\
    clock_reads (after (createBot v req) w) = clock_reads w /\
    fs (after (createBot v req) w) = fs w /\
    fs_trace (after (createBot v req) w)
    = fs_trace w ++ [mkWrite (UserJson (deducted_doc v w)) false].
Proof.
  intros v req w V F. unfold outcome, after, deducted_doc.
  enter V w. rewrite F. step. repeat split.
Qed.

Lemma createBot_points_save_failure_witness :
  outcome (createBot ServerA alice) (funded ServerA 300 (fun _ => false) (fun _ => 7))
  = Ok (server_error err_save_points) /\
  points (userInfo (after (createBot ServerA alice)
                          (funded ServerA 300 (fun _ => false) (fun _ => 7))))
  = Num 300.
Proof.
  destruct (createBot_points_save_failure ServerA alice
              (funded ServerA 300 (fun _ => false) (fun _ => 7))
              eq_refl eq_refl) as (H1 & H2 & _).
  split; [exact H1 | rewrite H2; reflexivity].
Defined.

Lemma round_double_safe z : safe_integer z -> round_double z = z.
Proof.
  unfold safe_integer, round_double. intros H. cbv zeta.
  destruct (Z.abs z <? 2 ^ 53) eqn:E; [reflexivity|].
  apply Z.ltb_ge in E. lia.
Qed.

(** C4 as stated fails above the safe integers: with a balance of
    [10^17] the checks pass, both writes succeed, a record is created,
    and the balance left is 99999999999999744, not [10^17 - 250]. *)
Lemma createBot_large_balance_rounds :
  let w := funded ServerA (10 ^ 17) (fun _ => true) (fun _ => 7) in
  validated ServerA w alice /\
  write_ok w 0 = true /\
  write_ok w 1 = true /\
  status_code (outcome (createBot ServerA alice) w) = Some 200 /\
  points (userInfo (after (createBot ServerA alice) w)) = Num 99999999999999744 /\
  points (userInfo (after (createBot ServerA alice) w)) <> Num (10 ^ 17 - 250).
Proof.
  cbv zeta. repeat split; try (vm_compute; reflexivity).
  vm_compute. discriminate.
Qed.

(** C4 (amended).  When the checks pass and both writes succeed, with
    balance [balance >= 250] before the request, the bot list is the old
    one with exactly one record appended, that record has status
    "Waiting for Verification" and [isPrivate = true], the count has
    grown by one, and the record is returned with 200; the balance
    afterwards is [balance - 250] as a double holds it, which is
    [balance - 250] itself whenever [balance] is below [2^53]. *)
Theorem createBot_success :
  forall v req w balance,
    validated v w req ->
    points (userInfo w) = Num balance ->
    250 <= balance ->
    write_ok w 0 = true ->
    write_ok w 1 = true ->
    exists b,
      outcome (createBot v req) w
      = Ok (mkResponse 200 (CreatedBody (created_message b) b)) /\
      points (userInfo (after (createBot v req) w))
      = Num (round_double (balance - 250)) /\
      (balance < 2 ^ 53 ->
       points (userInfo (after (createBot v req) w)) = Num (balance - 250)) /\
      bots (after (createBot v req) w) = bots w ++ [b] /\
      botCount (after (createBot v req) w) = botCount w + 1 /\
      status b = "Waiting for Verification" /\
      isPrivate b = true /\
      username b = req_username req /\
      id b = ("bot_" ++ show_Z (clock w (clock_reads w)))%string.
Proof.
  intros v req w balance V Hp Hge F G. unfold outcome, after.
  enter V w. subst p.
  rewrite F. step. rewrite G. step.
  eexists. repeat split.
  intros Hlt. cbn [num_sub]. rewrite round_double_safe; [reflexivity|].
  unfold safe_integer. lia.
Qed.

(** With 300 points a successful creation leaves 50. *)
Lemma createBot_success_witness :
  points (userInfo (after (createBot ServerA alice)
                          (funded ServerA 300 (fun _ => true) (fun _ => 7))))
  = Num 50 /\
  map status (bots (after (createBot ServerA alice)
                          (funded ServerA 300 (fun _ => true) (fun _ => 7))))
  = ["Waiting for Verification"].
Proof.
  destruct (createBot_success ServerA alice
              (funded ServerA 300 (fun _ => true) (fun _ => 7)) 300
              eq_refl eq_refl ltac:(lia) eq_refl eq_refl)
    as (b & _ & _ & H2 & H3 & _ & H5 & _).
  split; [exact (H2 eq_refl)|]. rewrite H3.
  cbn [funded boot set_points set_userInfo bots app map].
  rewrite H5. reflexivity.
Defined.

(** The bot-list write fails after the user-info write succeeded: the
    memory is rolled back whatever the third write does; the response
    and the error log depend on that third write. *)
Lemma createBot_bot_save_failure v req w :
  validated v w req ->
  write_ok w 0 = true ->
  write_ok w 1 = false ->
  bots (after (createBot v req) w) = bots w /\
  botCount (after (createBot v req) w) = botCount w /\
  userInfo (after (createBot v req) w) = userInfo w /\
  bot_data (fs (after (createBot v req) w)) = bot_data (fs w) /\
  fs_trace (after (createBot v req) w)
  = fs_trace w
    ++ [mkWrite (UserJson (deducted_doc v w)) true;
        mkWrite (BotsJson (bots w ++ [built_bot v req w])) false;
        mkWrite (UserJson (user_json v (userInfo w))) (write_ok w 2)] /\
  (write_ok w 2 = true ->
   outcome (createBot v req) w = Ok (server_error err_save_bot) /\
   user_data (fs (after (createBot v req) w))
   = Doc (user_json v (userInfo w)) /\
   console (after (createBot v req) w)
   = console w
     ++ [Log (attempt_line v req w); points_saved_line v w;
         LogError "Failed to save bots:" (Some (WriteFailed bot_data_json))]) /\
  (write_ok w 2 = false ->
   outcome (createBot v req) w = Throw (WriteFailed user_data_json) /\
   user_data (fs (after (createBot v req) w)) = Doc (deducted_doc v w) /\
   console (after (createBot v req) w)
   = console w ++ [Log (attempt_line v req w); points_saved_line v w]).
Proof.
  intros V F G. unfold outcome, after, deducted_doc, built_bot, points_saved_line.
  enter V w. rewrite F. step. rewrite G. step.
  rewrite removelast_last, Z.add_simpl_r.
  destruct (ok (S (S (List.length tr)))); step;
    rewrite <- ?app_assoc; cbn [app store bot_data user_data path_of];
    repeat split; intros; try discriminate; reflexivity.
Qed.

(** C1 (the code departs from the claim).  With 300 points, the
    user-info write succeeding and both the bot-list write and the
    compensating user-info write failing, the handler rolls the memory
    back (no record, count 0, 300 points) but then leaves through the
    exception of the compensating write: it returns no response, and
    the console holds no error entry, only the two information lines.
    The user-info document on disk still says 50 points. *)
Theorem createBot_compensation_write_fails :
  let w := funded ServerA 300 first_write_only (fun _ => 7) in
  let w' := after (createBot ServerA alice) w in
  outcome (createBot ServerA alice) w = Throw (WriteFailed user_data_json) /\
  console w'
  = [Log "Create bot attempt: Username=alice, Private=true, Points=300, TotalBots=0, PrivateBots=0";
     Log "Points saved: 50"] /\
  bots w' = [] /\
  botCount w' = 0 /\
  points (userInfo w') = Num 300 /\
  user_data (fs w') = Doc (mkUserDoc (JNum 50) JUndefined) /\
  map succeeded (fs_trace w') = [true; false; false].
Proof.
  cbv zeta. repeat split; vm_compute; reflexivity.
Qed.

(** When the compensating write succeeds, the first half of C1 holds:
    record removed, count and points restored, user info re-persisted,
    response 500, failure logged. *)
Lemma createBot_bot_save_failure_compensated v req w :
  validated v w req ->
  write_ok w 0 = true ->
  write_ok w 1 = false ->
  write_ok w 2 = true ->
  outcome (createBot v req) w = Ok (server_error err_save_bot) /\
  bots (after (createBot v req) w) = bots w /\
  botCount (after (createBot v req) w) = botCount w /\
  userInfo (after (createBot v req) w) = userInfo w /\
  user_data (fs (after (createBot v req) w)) = Doc (user_json v (userInfo w)).
Proof.
  intros V F G K.
  destruct (createBot_bot_save_failure v req w V F G)
    as (H1 & H2 & H3 & _ & _ & H6 & _).
  destruct (H6 K) as (H7 & H8 & _). auto.
Qed.

(** ** References into the bot list *)

(** [find_ref] returns the first position whose record satisfies the
    predicate; [assign] changes that position only. *)

Lemma find_ref_Some p l i :
  find_ref p l = Some i ->
  exists b,
    nth_error l i = Some b /\ p b = true /\
    forall j b', (j < i)%nat -> nth_error l j = Some b' -> p b' = false.
Proof.
  revert i. induction l as [|x l IH]; intros i; cbn [find_ref]; [discriminate|].
  destruct (p x) eqn:E.
  - intros [= <-]. exists x. repeat split; auto. intros j b' Hj. lia.
  - destruct (find_ref p l) as [k|] eqn:F; cbn [option_map]; [|discriminate].
    intros [= <-]. destruct (IH k eq_refl) as (b & Hb & Hp & Hlt).
    exists b. repeat split; auto.
    intros [|j] b' Hj; cbn [nth_error].
    + intros [= <-]. exact E.
    + apply Hlt. lia.
Qed.

Lemma find_ref_None p l :
  find_ref p l = None <-> forall b, In b l -> p b = false.
Proof.
  induction l as [|x l IH]; cbn [find_ref].
  - split; [intros _ b []|reflexivity].
  - destruct (p x) eqn:E.
    + split; [discriminate|]. intros H. specialize (H x (or_introl eq_refl)).
      congruence.
    + destruct (find_ref p l); cbn [option_map].
      * split; [discriminate|]. intros H.
        assert (Some n = None) by (apply IH; intros b Hb; apply H; right; auto).
        discriminate.
      * split; [|reflexivity]. intros _ b [<-|Hb]; auto. apply IH; auto.
Qed.

Lemma nth_error_assign_same f l : forall i b,
  nth_error l i = Some b -> nth_error (assign i f l) i = Some (f b).
Proof.
  induction l as [|x l IH]; intros [|i] b; cbn [nth_error assign];
    try discriminate.
  - intros [= <-]. reflexivity.
  - apply IH.
Qed.

Lemma nth_error_assign_other f l : forall i j,
  j <> i -> nth_error (assign i f l) j = nth_error l j.
Proof.
  induction l as [|x l IH]; intros [|i] [|j] H; cbn [nth_error assign];
    try reflexivity; try congruence.
  apply IH. congruence.
Qed.

Lemma length_assign f l : forall i, List.length (assign i f l) = List.length l.
Proof.
  induction l as [|x l IH]; intros [|i]; cbn [assign List.length]; auto.
Qed.

Lemma find_ref_assign p f l :
  (forall b, p (f b) = p b) ->
  forall i, find_ref p (assign i f l) = find_ref p l.
Proof.
  intros H. induction l as [|x l IH]; intros [|i]; cbn [assign find_ref]; auto.
  - rewrite H. reflexivity.
  - rewrite IH. reflexivity.
Qed.

Lemma assign_idem f l :
  (forall b, f (f b) = f b) ->
  forall i, assign i f (assign i f l) = assign i f l.
Proof.
  intros H. induction l as [|x l IH]; intros [|i]; cbn [assign]; auto.
  - rewrite H. reflexivity.
  - rewrite IH. reflexivity.
Qed.

(** ** verifyBot (C9, C2) *)

Lemma verifyBot_absent botId w :
  find_ref (has_id botId) (bots w) = None ->
  verifyBot botId w = (Ok (mkResponse 404 (ErrorBody "Bot not found.")), w).
Proof.
  intros H. unfold verifyBot. step. fold (has_id botId). rewrite H. reflexivity.
Qed.

Lemma verifyBot_present botId w i b :
  find_ref (has_id botId) (bots w) = Some i ->
  nth_error (bots w) i = Some b ->
  let bots' := assign i (set_status "Verified") (bots w) in
  verifyBot botId w
  = if write_ok w 0
    then (Ok (mkResponse 200 (MessageBody (verified_message b))),
          set_fs (store (BotsJson bots') (fs w))
                 (fs_trace w ++ [mkWrite (BotsJson bots') true])
                 (set_bots bots' w))
    else (Ok (server_error "Error verifying bot."),
          set_console
            (console w
             ++ [LogError "Failed to save bots:" (Some (WriteFailed bot_data_json))])
            (set_fs (fs w) (fs_trace w ++ [mkWrite (BotsJson bots') false])
                    (set_bots bots' w))).
Proof.
  intros H Hb. destruct w as [bs n u d ok tr clk rd con].
  unfold verifyBot. step. fold (has_id botId). rewrite H.
  step. destruct (ok (List.length tr)); step.
  - rewrite (nth_error_assign_same _ _ _ _ Hb). reflexivity.
  - reflexivity.
Qed.

Lemma absent_find_ref botId l :
  ~ In botId (map id l) -> find_ref (has_id botId) l = None.
Proof.
  intros H. apply find_ref_None. intros b Hb. unfold has_id.
  destruct (id b =? botId)%string eqn:E; [|reflexivity].
  apply String.eqb_eq in E. exfalso. apply H. rewrite <- E. apply in_map, Hb.
Qed.

Lemma present_find_ref botId l :
  In botId (map id l) ->
  exists i b,
    find_ref (has_id botId) l = Some i /\ nth_error l i = Some b /\ id b = botId /\
    forall j b', (j < i)%nat -> nth_error l j = Some b' -> id b' <> botId.
Proof.
  intros H. destruct (find_ref (has_id botId) l) as [i|] eqn:F.
  - destruct (find_ref_Some _ _ _ F) as (b & Hb & Hp & Hlt).
    exists i, b. repeat split; auto.
    + now apply String.eqb_eq in Hp.
    + intros j b' Hj Hb' E. specialize (Hlt j b' Hj Hb'). unfold has_id in Hlt.
      rewrite E, String.eqb_refl in Hlt. discriminate.
  - exfalso. apply in_map_iff in H. destruct H as (b & Hid & Hb).
    pose proof (proj1 (find_ref_None _ _) F b Hb) as Hp. unfold has_id in Hp.
    rewrite Hid, String.eqb_refl in Hp. discriminate.
Qed.

(** C9. [verifyBot] on an id that no record carries answers 404 and
    leaves the whole world as it was.  On an id that some record carries
    it sets the status of the first such record (the one [find]
    returns) to "Verified": that record then has status "Verified" and
    its other fields as before (every other record, the count and the
    user info stay as they were); the bot list is written once; the
    answer is 200 when that write succeeds (the document then holds the
    new list) and 500 "Error verifying bot." when it fails.  A second
    verify of the same id whose write succeeds is again a 200 and
    leaves the bot list as the first one left it. *)
Theorem verifyBot_behaviour :
  forall botId w,
    (~ In botId (map id (bots w)) ->
     outcome (verifyBot botId) w
     = Ok (mkResponse 404 (ErrorBody "Bot not found.")) /\
     after (verifyBot botId) w = w) /\
    (In botId (map id (bots w)) ->
     exists i b,
       nth_error (bots w) i = Some b /\ id b = botId /\
       (forall j b', (j < i)%nat -> nth_error (bots w) j = Some b' ->
                     id b' <> botId) /\
       nth_error (bots (after (verifyBot botId) w)) i
       = Some (mkBot (id b) (username b) "Verified" (createdAt b)
                     (verificationDeadline b) (isPrivate b) (userId b)) /\
       (forall j, j <> i ->
                  nth_error (bots (after (verifyBot botId) w)) j
                  = nth_error (bots w) j) /\
       botCount (after (verifyBot botId) w) = botCount w /\
       userInfo (after (verifyBot botId) w) = userInfo w /\
       fs_trace (after (verifyBot botId) w)
       = fs_trace w
         ++ [mkWrite (BotsJson (bots (after (verifyBot botId) w)))
                     (write_ok w 0)] /\
       (write_ok w 0 = true ->
        outcome (verifyBot botId) w
        = Ok (mkResponse 200 (MessageBody (verified_message b))) /\
        bot_data (fs (after (verifyBot botId) w))
        = Doc (bots (after (verifyBot botId) w))) /\
       (write_ok w 0 = false ->
        outcome (verifyBot botId) w = Ok (server_error "Error verifying bot.") /\
        fs (after (verifyBot botId) w) = fs w) /\
       (write_ok (after (verifyBot botId) w) 0 = true ->
        outcome (verifyBot botId) (after (verifyBot botId) w)
        = Ok (mkResponse 200 (MessageBody (verified_message b))) /\
        bots (after (verifyBot botId) (after (verifyBot botId) w))
        = bots (after (verifyBot botId) w))).
Proof.
  intros botId w. split.
  - intros H. unfold outcome, after.
    rewrite (verifyBot_absent _ _ (absent_find_ref _ _ H)). split; reflexivity.
  - intros H. destruct (present_find_ref _ _ H) as (i & b & F & Hb & Hid & Hfst).
    exists i, b. split; [exact Hb|]. split; [exact Hid|]. split; [exact Hfst|].
    assert (B1 : bots (after (verifyBot botId) w)
                 = assign i (set_status "Verified") (bots w)).
    { unfold after. rewrite (verifyBot_present _ _ _ _ F Hb).
      destruct (write_ok w 0); reflexivity. }
    rewrite B1.
    split; [exact (nth_error_assign_same _ _ _ _ Hb)|].
    split; [intros j Hj; apply nth_error_assign_other, Hj|].
    unfold outcome in *. unfold after in *.
    assert (F1 : find_ref (has_id botId) (bots (snd (verifyBot botId w)))
                 = Some i).
    { rewrite B1, find_ref_assign; [exact F|]. intros []; reflexivity. }
    assert (Hb1 : nth_error (bots (snd (verifyBot botId w))) i
                  = Some (set_status "Verified" b)).
    { rewrite B1. apply nth_error_assign_same, Hb. }
    rewrite (verifyBot_present _ _ _ _ F1 Hb1).
    rewrite B1, assign_idem by (intros []; reflexivity).
    clear F1 Hb1 B1.
    rewrite (verifyBot_present _ _ _ _ F Hb).
    destruct w as [bs n u d ok tr clk rd con]. wred.
    destruct (ok (List.length tr)) eqn:E; wred; cbn [store bot_data];
      rewrite ?last_length; repeat split; intros; try discriminate;
      try reflexivity;
      match goal with
      | K : ok (S (List.length tr)) = true |- _ => rewrite K; reflexivity
      end.
Qed.

Lemma verifyBot_behaviour_witness :
  outcome (verifyBot "bot_8") (one_bot (fun _ => true))
  = Ok (mkResponse 404 (ErrorBody "Bot not found.")) /\
  nth_error (bots (after (verifyBot "bot_7") (one_bot (fun _ => true)))) 0
  = Some (mkBot "bot_7" (JStr "alice") "Verified" 1 2 true (JStr "guest")).
Proof.
  split.
  - apply (proj1 (verifyBot_behaviour "bot_8" (one_bot (fun _ => true)))).
    cbn. intros [H|[]]. discriminate.
  - destruct (proj2 (verifyBot_behaviour "bot_7" (one_bot (fun _ => true))))
      as (i & b & H1 & _ & _ & H3 & _).
    + cbn. left. reflexivity.
    + destruct i as [|[|i]]; cbn in H1; try discriminate.
      injection H1 as <-. exact H3.
Defined.

(** C2 as stated fails for [verifyBot]: the write fails, 500 is
    returned, and the record stays "Verified" in memory. *)
Lemma verifyBot_keeps_status_on_write_failure :
  outcome (verifyBot "bot_7") (one_bot (fun _ => false))
  = Ok (server_error "Error verifying bot.") /\
  bots (one_bot (fun _ => false)) = [waiting "bot_7"] /\
  bots (after (verifyBot "bot_7") (one_bot (fun _ => false)))
  = [set_status "Verified" (waiting "bot_7")] /\
  bots (after (verifyBot "bot_7") (one_bot (fun _ => false)))
  <> bots (one_bot (fun _ => false)).
Proof.
  repeat split; try (vm_compute; reflexivity).
  vm_compute. discriminate.
Qed.

(** C2 (amended).  Whenever [createBot] answers 500, the bot list, the
    bot count and the user info are those from before the request.
    Whenever [verifyBot] answers 500, the count and the user info are
    unchanged and the bot list is the old one with the status of the
    record found set to "Verified": that assignment is not undone. *)
Theorem persistence_error_rollback :
  (forall v req w r,
      outcome (createBot v req) w = Ok r ->
      code r = 500 ->
      bots (after (createBot v req) w) = bots w /\
      botCount (after (createBot v req) w) = botCount w /\
      userInfo (after (createBot v req) w) = userInfo w) /\
  (forall botId w r,
      outcome (verifyBot botId) w = Ok r ->
      code r = 500 ->
      exists i,
        find_ref (has_id botId) (bots w) = Some i /\
        bots (after (verifyBot botId) w)
        = assign i (set_status "Verified") (bots w) /\
        botCount (after (verifyBot botId) w) = botCount w /\
        userInfo (after (verifyBot botId) w) = userInfo w).
Proof.
  split.
  - intros v req w r. unfold outcome, after.
    destruct (first_rejection v w req) as [c|] eqn:E.
    + rewrite (createBot_rejected _ _ _ _ E). cbn [fst].
      intros [= <-]. discriminate.
    + enter E w.
      destruct (ok (List.length tr)); step.
      * destruct (ok (S (List.length tr))); step.
        -- intros [= <-]. discriminate.
        -- rewrite removelast_last, Z.add_simpl_r.
           destruct (ok (S (S (List.length tr)))); step.
           ++ intros _ _. repeat split.
           ++ discriminate.
      * intros _ _. repeat split.
  - intros botId w r. unfold outcome, after.
    destruct (find_ref (has_id botId) (bots w)) as [i|] eqn:F.
    + destruct (find_ref_Some _ _ _ F) as (b & Hb & _).
      rewrite (verifyBot_present _ _ _ _ F Hb).
      destruct (write_ok w 0).
      * cbn [fst]. intros [= <-]. discriminate.
      * intros _ _. exists i. repeat split.
    + rewrite (verifyBot_absent _ _ F). cbn [fst]. intros [= <-]. discriminate.
Qed.

Lemma persistence_error_rollback_witness :
  points (userInfo (after (createBot ServerA alice)
                          (funded ServerA 300 (fun _ => false) (fun _ => 7))))
  = Num 300 /\
  bots (after (verifyBot "bot_7") (one_bot (fun _ => false)))
  = [set_status "Verified" (waiting "bot_7")].
Proof.
  split.
  - destruct (proj1 persistence_error_rollback ServerA alice
                (funded ServerA 300 (fun _ => false) (fun _ => 7))
                (server_error err_save_points) eq_refl eq_refl)
      as (_ & _ & H).
    rewrite H. reflexivity.
  - destruct (proj2 persistence_error_rollback "bot_7" (one_bot (fun _ => false))
                (server_error "Error verifying bot.") eq_refl eq_refl)
      as (i & Hi & H & _).
    rewrite H. cbv in Hi. injection Hi as <-. reflexivity.
Defined.

(** ** The counter and the list (C10) *)

Ltac split_writes ok :=
  repeat (match goal with
          | |- context [ ok ?n ] => destruct (ok n)
          end; step).

Ltac unfold_load :=
  cbv beta iota zeta delta
    [loadData load_bots load_user initializeDataFiles] in *.

Lemma loadData_count_matches S2N v w :
  count_matches w -> count_matches (after (loadData S2N v) w).
Proof.
  unfold count_matches. intros H.
  destruct w as [bs n u [bd ud] ok tr clk rd con].
  destruct v, bd, ud; unfold_load; step; cbn [bot_data user_data store];
    step; split_writes ok; cbn [bot_data user_data store]; step;
    split_writes ok; cbn [bot_data user_data store]; step;
    try reflexivity; try exact H.
Qed.

Lemma createBot_count_matches v req w :
  count_matches w -> count_matches (after (createBot v req) w).
Proof.
  unfold count_matches, after. intros H.
  destruct (first_rejection v w req) as [c|] eqn:E.
  - rewrite (createBot_rejected _ _ _ _ E). exact H.
  - enter E w.
    destruct (ok (List.length tr)); step; [|exact H].
    destruct (ok (S (List.length tr))); step.
    + lia.
    + rewrite removelast_last, Z.add_simpl_r.
      destruct (ok (S (S (List.length tr)))); step; exact H.
Qed.

Lemma run_count_matches v reqs : forall w,
  count_matches w -> count_matches (run v reqs w).
Proof.
  unfold run. induction reqs as [|r reqs IH]; intros w H; cbn [fold_left].
  - exact H.
  - apply IH, createBot_count_matches, H.
Qed.

(** C10. [botCount] equals the length of [bots] in the state the module
    starts with; [loadData] keeps that equality whatever it does (load,
    reset, or leave through an exception), and so does every createBot
    request whatever its outcome (validation error, either persistence
    failure, an exception of the compensating write, or success).  Hence
    it holds after start-up and after any number of requests. *)
Theorem botCount_is_length :
  (forall S2N v w,
      count_matches w -> count_matches (after (loadData S2N v) w)) /\
  (forall v req w,
      count_matches w -> count_matches (after (createBot v req) w)) /\
  (forall S2N v d ok clk reqs,
      count_matches (after (loadData S2N v) (boot v d ok clk)) /\
      count_matches (run v reqs (after (loadData S2N v) (boot v d ok clk)))).
Proof.
  split; [exact loadData_count_matches|].
  split; [exact createBot_count_matches|].
  intros S2N v d ok clk reqs.
  assert (H : count_matches (after (loadData S2N v) (boot v d ok clk)))
    by (apply loadData_count_matches; reflexivity).
  split; [exact H|]. apply run_count_matches, H.
Qed.

Lemma botCount_is_length_witness :
  count_matches
    (after (createBot ServerA alice)
           (funded ServerA 300 first_write_only (fun _ => 7))).
Proof.
  apply (proj1 (proj2 botCount_is_length)). reflexivity.
Defined.

(** ** Start-up with one unreadable document (C8) *)

(** C8 as stated fails on [ServerB]: the bot-list document is corrupt,
    the user-info document is valid; the list is reset and the user info
    loaded, but nothing is written and the document stays corrupt. *)
Lemma loadData_ServerB_leaves_corrupt_document :
  let w := boot ServerB (mkDisk Corrupt (Doc (mkUserDoc (JNum 300) JUndefined)))
                (fun _ => true) (fun _ => 7) in
  let w' := after (loadData no_numeric_strings ServerB) w in
  outcome (loadData no_numeric_strings ServerB) w = Ok tt /\
  bots w' = [] /\
  points (userInfo w') = Num 300 /\
  bot_data (fs w') = Corrupt /\
  bot_data (fs w') <> Doc [] /\
  fs_trace w' = [].
Proof.
  cbv zeta. repeat split; try (vm_compute; reflexivity).
  vm_compute. discriminate.
Qed.

(** C8 (amended).  In the servers that initialise their data files
    ([ServerA], [PerUser]), when the overwrite of the unreadable
    document succeeds: a corrupt bot-list document with a valid
    user-info document gives an empty list, count 0, the bot-list
    document rewritten as [[]], and the user info loaded from its
    document, which is left as it is; symmetrically a corrupt user-info
    document with a valid bot-list document gives the list loaded, the
    default user info, and the user-info document rewritten with the
    default.  In [ServerB] the memory is set the same way (for the user
    info only [points] is reset to 0) but the disk is not written. *)
Theorem loadData_isolation :
  forall S2N v w,
    (forall ud,
        self_healing v ->
        bot_data (fs w) = Corrupt ->
        user_data (fs w) = Doc ud ->
        write_ok w 0 = true ->
        outcome (loadData S2N v) w = Ok tt /\
        bots (after (loadData S2N v) w) = [] /\
        botCount (after (loadData S2N v) w) = 0 /\
        userInfo (after (loadData S2N v) w) = parsed_userInfo S2N v ud /\
        fs (after (loadData S2N v) w) = mkDisk (Doc []) (Doc ud)) /\
    (forall l,
        self_healing v ->
        bot_data (fs w) = Doc l ->
        user_data (fs w) = Corrupt ->
        write_ok w 0 = true ->
        outcome (loadData S2N v) w = Ok tt /\
        bots (after (loadData S2N v) w) = l /\
        botCount (after (loadData S2N v) w) = Z.of_nat (List.length l) /\
        userInfo (after (loadData S2N v) w) = default_userInfo v /\
        fs (after (loadData S2N v) w) = mkDisk (Doc l) (Doc (default_user_doc v))) /\
    (forall ud,
        v = ServerB ->
        bot_data (fs w) = Corrupt ->
        user_data (fs w) = Doc ud ->
        outcome (loadData S2N v) w = Ok tt /\
        bots (after (loadData S2N v) w) = [] /\
        botCount (after (loadData S2N v) w) = 0 /\
        userInfo (after (loadData S2N v) w) = parsed_userInfo S2N v ud /\
        fs (after (loadData S2N v) w) = fs w /\
        fs_trace (after (loadData S2N v) w) = fs_trace w) /\
    (forall l,
        v = ServerB ->
        bot_data (fs w) = Doc l ->
        user_data (fs w) = Corrupt ->
        outcome (loadData S2N v) w = Ok tt /\
        bots (after (loadData S2N v) w) = l /\
        botCount (after (loadData S2N v) w) = Z.of_nat (List.length l) /\
        userInfo (after (loadData S2N v) w)
        = mkUserInfo (Num 0) (info_userId (userInfo w)) /\
        fs (after (loadData S2N v) w) = fs w /\
        fs_trace (after (loadData S2N v) w) = fs_trace w).
Proof.
  intros S2N v w. unfold self_healing, outcome, after, parsed_userInfo.
  destruct w as [bs n [p uid] [bd ud0] ok tr clk rd con].
  cbn [fs bot_data user_data].
  destruct v; repeat split; intros; subst;
    try match goal with H : ?x <> ?x |- _ => destruct (H eq_refl) end;
    try discriminate;
    unfold_load; step; cbn [bot_data user_data store] in *; step;
    try match goal with H : ok _ = true |- _ => rewrite H end; step;
    cbn [bot_data user_data store]; step; reflexivity.
Qed.

Lemma loadData_isolation_witness :
  let w := boot PerUser (mkDisk Corrupt (Doc (mkUserDoc (JNum 300) JUndefined)))
                (fun _ => true) (fun _ => 7) in
  bots (after (loadData no_numeric_strings PerUser) w) = [] /\
  userInfo (after (loadData no_numeric_strings PerUser) w)
  = mkUserInfo (Num 300) (JStr "guest") /\
  fs (after (loadData no_numeric_strings PerUser) w)
  = mkDisk (Doc []) (Doc (mkUserDoc (JNum 300) JUndefined)).
Proof.
  cbv zeta.
  destruct (proj1 (loadData_isolation no_numeric_strings PerUser
                     (boot PerUser
                        (mkDisk Corrupt (Doc (mkUserDoc (JNum 300) JUndefined)))
                        (fun _ => true) (fun _ => 7)))
                  (mkUserDoc (JNum 300) JUndefined)
                  ltac:(discriminate) eq_refl eq_refl eq_refl)
    as (_ & H1 & _ & H3 & H4).
  repeat split; assumption.
Defined.

(** When the overwrite itself fails, [ServerA] and [PerUser] treat it as
    a fatal start-up error: [loadData] throws and the user-info document
    is not read. *)
Lemma loadData_overwrite_failure S2N v w ud :
  self_healing v ->
  bot_data (fs w) = Corrupt ->
  user_data (fs w) = Doc ud ->
  write_ok w 0 = false ->
  outcome (loadData S2N v) w = Throw (WriteFailed bot_data_json) /\
  userInfo (after (loadData S2N v) w) = userInfo w.
Proof.
  unfold self_healing, outcome, after.
  destruct w as [bs n [p uid] [bd ud0] ok tr clk rd con].
  cbn [fs bot_data user_data]. intros Hv -> -> F.
  destruct v; try (destruct (Hv eq_refl));
    unfold_load; step; cbn [bot_data user_data store] in *; step;
    rewrite F; step; split; reflexivity.
Qed.

(** ** Record ids (C7) *)




(** What one request does to the list and to the clock. *)
Lemma createBot_effect v req w :
  clock (after (createBot v req) w) = clock w /\
  ((bots (after (createBot v req) w) = bots w /\
    (clock_reads w <= clock_reads (after (createBot v req) w))%nat) \/
   (bots (after (createBot v req) w) = bots w ++ [built_bot v req w] /\
    clock_reads (after (createBot v req) w) = (3 + clock_reads w)%nat /\
    exists r, outcome (createBot v req) w = Ok r /\ code r = 200)).
Proof.
  unfold after, outcome, built_bot.
  destruct (first_rejection v w req) as [c|] eqn:E.
  - rewrite (createBot_rejected _ _ _ _ E). cbn [fst snd].
    split; [reflexivity|]. left. split; [reflexivity|]. cbn. lia.
  - enter E w.
    destruct (ok (List.length tr)); step.
    + destruct (ok (S (List.length tr))); step.
      * split; [reflexivity|]. right. repeat split. eexists. split; reflexivity.
      * rewrite removelast_last.
        destruct (ok (S (S (List.length tr)))); step;
          (split; [reflexivity|]; left; split; [reflexivity|lia]).
    + split; [reflexivity|]. left. split; [reflexivity|lia].
Qed.


Lemma run_clock v reqs : forall w, clock (run v reqs w) = clock w.
Proof.
  unfold run. induction reqs as [|r reqs IH]; intros w; cbn [fold_left].
  - reflexivity.
  - rewrite IH. apply createBot_effect.
Qed.





(** ** Capacity and quota (C3) *)

(** A request either leaves the list and the counter alone, or it has
    passed the five checks and appends the record it built. *)
Lemma createBot_list_effect v req w :
  (bots (after (createBot v req) w) = bots w /\
   botCount (after (createBot v req) w) = botCount w) \/
  (validated v w req /\
   bots (after (createBot v req) w) = bots w ++ [built_bot v req w] /\
   botCount (after (createBot v req) w) = botCount w + 1).
Proof.
  unfold after, built_bot.
  destruct (first_rejection v w req) as [c|] eqn:E.
  - rewrite (createBot_rejected _ _ _ _ E). left. split; reflexivity.
  - pose proof E as V. enter E w.
    destruct (ok (List.length tr)); step.
    + destruct (ok (S (List.length tr))); step.
      * right. repeat split. exact V.
      * rewrite removelast_last, Z.add_simpl_r.
        destruct (ok (S (S (List.length tr)))); step; left; split; reflexivity.
    + left. split; reflexivity.
Qed.

Lemma createBot_capacity v req w :
  botCount w <= maxBots -> botCount (after (createBot v req) w) <= maxBots.
Proof.
  intros H. destruct (createBot_list_effect v req w) as [(_ & ->)|(V & _ & ->)].
  - exact H.
  - destruct (validated_inv _ _ _ V) as (_ & _ & Hcap & _).
    rewrite geb_leb in Hcap. apply Z.leb_gt in Hcap. lia.
Qed.

Lemma run_capacity v reqs : forall w,
  botCount w <= maxBots -> botCount (run v reqs w) <= maxBots.
Proof.
  unfold run. induction reqs as [|r reqs IH]; intros w H; cbn [fold_left].
  - exact H.
  - apply IH, createBot_capacity, H.
Qed.

(** In the single-user servers the number of private records never
    passes the quota. *)
Lemma createBot_global_quota v req w :
  v <> PerUser ->
  (List.length (privateBots (bots w)) <= maxPrivateBots)%nat ->
  (List.length (privateBots (bots (after (createBot v req) w)))
   <= maxPrivateBots)%nat.
Proof.
  intros Hv H. destruct (createBot_list_effect v req w) as [(-> & _)|(V & -> & _)].
  - exact H.
  - destruct (validated_inv _ _ _ V) as (_ & _ & _ & Hq & _).
    apply Nat.leb_gt in Hq. unfold privateBots in *.
    rewrite filter_app, length_app. cbn [filter built_bot isPrivate List.length].
    destruct v; try (destruct (Hv eq_refl)); lia.
Qed.

Lemma run_global_quota v reqs : forall w,
  v <> PerUser ->
  (List.length (privateBots (bots w)) <= maxPrivateBots)%nat ->
  (List.length (privateBots (bots (run v reqs w))) <= maxPrivateBots)%nat.
Proof.
  unfold run. induction reqs as [|r reqs IH]; intros w Hv H; cbn [fold_left].
  - exact H.
  - apply IH; [exact Hv|]. apply createBot_global_quota; assumption.
Qed.

Lemma strict_eq_true a b : strict_eq a b = true -> a = b.
Proof.
  destruct a, b; cbn [strict_eq]; try discriminate; try reflexivity.
  - intros H. apply Bool.eqb_prop in H. now subst.
  - intros H. apply Z.eqb_eq in H. now subst.
  - intros H. apply String.eqb_eq in H. now subst.
Qed.

(** In [PerUser] a request that names its user (a truthy [userId])
    keeps every user's number of private records within the quota. *)
Lemma createBot_user_quota req w :
  truthy (req_userId req) = true ->
  (forall u, (List.length (userPrivateBots u (bots w)) <= maxPrivateBots)%nat) ->
  forall u,
    (List.length (userPrivateBots u (bots (after (createBot PerUser req) w)))
     <= maxPrivateBots)%nat.
Proof.
  intros Ht H u.
  destruct (createBot_list_effect PerUser req w) as [(-> & _)|(V & -> & _)].
  - apply H.
  - destruct (validated_inv _ _ _ V) as (_ & _ & _ & Hq & _).
    apply Nat.leb_gt in Hq. unfold userPrivateBots in *.
    rewrite filter_app, length_app.
    cbn [filter built_bot isPrivate userId andb]. unfold js_or. rewrite Ht.
    destruct (strict_eq (req_userId req) u) eqn:E; cbn [List.length].
    + apply strict_eq_true in E. subst u. lia.
    + specialize (H u). lia.
Qed.

Lemma run_user_quota reqs : forall w,
  Forall (fun req => truthy (req_userId req) = true) reqs ->
  (forall u, (List.length (userPrivateBots u (bots w)) <= maxPrivateBots)%nat) ->
  forall u,
    (List.length (userPrivateBots u (bots (run PerUser reqs w)))
     <= maxPrivateBots)%nat.
Proof.
  unfold run. induction reqs as [|r reqs IH]; intros w Hr H; cbn [fold_left].
  - exact H.
  - inversion Hr as [|? ? Ht Hrest]; subst.
    apply IH; [exact Hrest|]. apply createBot_user_quota; assumption.
Qed.

(** The parts of C3 that the code keeps: from the state after start-up
    with an empty bot list, the count never passes 20 in any server, the
    private records never pass 5 in the single-user servers, and in
    [PerUser] no user passes 5 as long as every request names its user. *)
Lemma run_limits S2N v ok clk ud reqs :
  let w := after (loadData S2N v) (boot v (mkDisk (Doc []) (Doc ud)) ok clk) in
  botCount (run v reqs w) <= maxBots /\
  count_matches (run v reqs w) /\
  (v <> PerUser ->
   (List.length (privateBots (bots (run v reqs w))) <= maxPrivateBots)%nat) /\
  (v = PerUser ->
   Forall (fun req => truthy (req_userId req) = true) reqs ->
   forall u,
     (List.length (userPrivateBots u (bots (run v reqs w))) <= maxPrivateBots)%nat).
Proof.
  cbv zeta.
  assert (B : bots (after (loadData S2N v) (boot v (mkDisk (Doc []) (Doc ud)) ok clk))
              = [] /\
              botCount (after (loadData S2N v)
                              (boot v (mkDisk (Doc []) (Doc ud)) ok clk)) = 0).
  { unfold after, boot. destruct v; unfold_load; step;
      cbn [bot_data user_data store]; step; split; reflexivity. }
  destruct B as (Hb & Hc).
  split; [apply run_capacity; rewrite Hc; unfold maxBots; lia|].
  split; [apply run_count_matches; unfold count_matches; rewrite Hb, Hc; reflexivity|].
  split.
  - intros Hv. apply run_global_quota; [exact Hv|]. rewrite Hb. cbn. lia.
  - intros -> Hr u. apply run_user_quota; [exact Hr|]. intros u'.
    rewrite Hb. cbn. unfold maxPrivateBots. lia.
Qed.

(** C3 (the code departs from the claim).  [PerUser], started on an
    empty bot list with 1500 points on disk, then six requests that
    carry no [userId]: all six are accepted, and the list holds six
    private records owned by "guest", one more than the quota.  The
    quota check counted the records whose [userId] is identical to the
    request's (absent) [userId], which is none of them. *)
Theorem per_user_quota_guest_exceeded :
  let d := mkDisk (Doc []) (Doc (mkUserDoc (JNum 1500) JUndefined)) in
  let w := after (loadData no_numeric_strings PerUser)
                 (boot PerUser d (fun _ => true) ticking_clock) in
  let w' := run PerUser (repeat alice 6) w in
  bots w = [] /\
  map userId (bots w') = repeat (JStr "guest") 6 /\
  map isPrivate (bots w') = repeat true 6 /\
  List.length (userPrivateBots (JStr "guest") (bots w')) = 6%nat /\
  List.length (userPrivateBots (req_userId alice) (bots w')) = 0%nat /\
  botCount w' = 6 /\
  points (userInfo w') = Num 0.
Proof.
  cbv zeta. repeat split; vm_compute; reflexivity.
Qed.

(** * Further properties of the code *)

(** ** [initializeDataFiles] *)

Ltac open_world w :=
  destruct w as [bs n [p uid] [bd ud0] ok tr clk rd con].

(** X1. When [initializeDataFiles] returns normally, a document that
    was missing now holds its default ([[]], resp. the default user
    info) and a document that was there, readable or not, is what it
    was; the memory is not touched. *)
Theorem initializeDataFiles_ensures_documents :
  forall v w,
    outcome (initializeDataFiles v) w = Ok tt ->
    bot_data (fs (after (initializeDataFiles v) w))
    = match bot_data (fs w) with Missing => Doc [] | f => f end /\
    user_data (fs (after (initializeDataFiles v) w))
    = match user_data (fs w) with
      | Missing => Doc (default_user_doc v)
      | f => f
      end /\
    bots (after (initializeDataFiles v) w) = bots w /\
    botCount (after (initializeDataFiles v) w) = botCount w /\
    userInfo (after (initializeDataFiles v) w) = userInfo w.
Proof.
  intros v w. open_world w.
  destruct bd, ud0; unfold initializeDataFiles; step;
    cbn [bot_data user_data store]; step; split_writes ok;
    cbn [bot_data user_data store]; step; split_writes ok;
    cbn [bot_data user_data store]; step;
    try discriminate; intros _; repeat split.
Qed.

Lemma initializeDataFiles_ensures_documents_witness :
  fs (after (initializeDataFiles PerUser)
            (boot PerUser (mkDisk Corrupt Missing) (fun _ => true) (fun _ => 7)))
  = mkDisk Corrupt (Doc (mkUserDoc (JNum 0) (JStr "guest"))).
Proof.
  destruct (initializeDataFiles_ensures_documents PerUser
              (boot PerUser (mkDisk Corrupt Missing) (fun _ => true) (fun _ => 7))
              eq_refl) as (H1 & H2 & _).
  destruct (fs (after (initializeDataFiles PerUser)
                      (boot PerUser (mkDisk Corrupt Missing)
                            (fun _ => true) (fun _ => 7)))) as [b u].
  cbn [bot_data user_data] in H1, H2. rewrite H1, H2. reflexivity.
Defined.

(** X2. When both documents exist, [initializeDataFiles] changes
    nothing at all (no write, no console line); so running it again
    after a run that returned normally is a no-op. *)
Theorem initializeDataFiles_idempotent :
  forall v w,
    (bot_data (fs w) <> Missing ->
     user_data (fs w) <> Missing ->
     initializeDataFiles v w = (Ok tt, w)) /\
    (outcome (initializeDataFiles v) w = Ok tt ->
     initializeDataFiles v (after (initializeDataFiles v) w)
     = (Ok tt, after (initializeDataFiles v) w)).
Proof.
  intros v w. open_world w. split.
  - cbn [fs bot_data user_data]. intros Hb Hu.
    destruct bd, ud0; try (destruct (Hb eq_refl)); try (destruct (Hu eq_refl));
      unfold initializeDataFiles; step; cbn [bot_data user_data]; reflexivity.
  - destruct bd, ud0; unfold initializeDataFiles; step;
      cbn [bot_data user_data store]; step; split_writes ok;
      cbn [bot_data user_data store]; step; split_writes ok;
      cbn [bot_data user_data store]; step;
      try discriminate; intros _; reflexivity.
Qed.

Lemma initializeDataFiles_idempotent_witness :
  fs_trace (after (initializeDataFiles ServerA)
                  (after (initializeDataFiles ServerA)
                         (boot ServerA (mkDisk Missing Missing)
                               (fun _ => true) (fun _ => 7))))
  = fs_trace (after (initializeDataFiles ServerA)
                    (boot ServerA (mkDisk Missing Missing)
                          (fun _ => true) (fun _ => 7))).
Proof.
  unfold after at 1.
  rewrite (proj2 (initializeDataFiles_idempotent ServerA
                    (boot ServerA (mkDisk Missing Missing)
                          (fun _ => true) (fun _ => 7))) eq_refl).
  reflexivity.
Defined.

(** ** [loadData] *)

Ltac run_load ok :=
  unfold_load; step; cbn [bot_data user_data store] in *; step;
  split_writes ok; cbn [bot_data user_data store]; step;
  split_writes ok; cbn [bot_data user_data store]; step;
  split_writes ok; cbn [bot_data user_data store]; step.

(** With both documents readable, [loadData] takes the list and the
    user info from them and writes nothing. *)
Lemma loadData_readable S2N v w l ud :
  bot_data (fs w) = Doc l ->
  user_data (fs w) = Doc ud ->
  loadData S2N v w
  = (Ok tt,
     set_console
       (console w
        ++ [Log ("Loaded bots: Total=" ++ show_Z (Z.of_nat (List.length l))
                 ++ ", Private=" ++ show_nat (List.length (privateBots l)))%string;
            Log match v with
                | PerUser =>
                    ("Loaded user data: Points="
                     ++ show_number (points (parsed_userInfo S2N v ud))
                     ++ ", UserId="
                     ++ show_json (info_userId (parsed_userInfo S2N v ud)))%string
                | _ =>
                    ("Loaded user data: Points="
                     ++ show_number (points (parsed_userInfo S2N v ud)))%string
                end])
       (set_userInfo (parsed_userInfo S2N v ud)
          (set_botCount (Z.of_nat (List.length l)) (set_bots l w)))).
Proof.
  open_world w. cbn [fs bot_data user_data]. intros -> ->.
  unfold parsed_userInfo.
  destruct v; run_load ok; rewrite <- app_assoc; reflexivity.
Qed.

(** X3. With both documents readable, [loadData] (in all three servers)
    returns normally with the list of the bot document, its length as
    count, and the user info of the user document with [points] coerced
    by [Number(...) || 0] (and, in [PerUser], [userId] defaulted to
    "guest"); it makes no call of [fs.writeFile]. *)
Theorem loadData_valid_documents :
  forall S2N v w l ud,
    bot_data (fs w) = Doc l ->
    user_data (fs w) = Doc ud ->
    outcome (loadData S2N v) w = Ok tt /\
    bots (after (loadData S2N v) w) = l /\
    botCount (after (loadData S2N v) w) = Z.of_nat (List.length l) /\
    userInfo (after (loadData S2N v) w) = parsed_userInfo S2N v ud /\
    fs (after (loadData S2N v) w) = fs w /\
    fs_trace (after (loadData S2N v) w) = fs_trace w.
Proof.
  intros S2N v w l ud Hb Hu. unfold outcome, after.
  rewrite (loadData_readable S2N v w l ud Hb Hu). repeat split.
Qed.

Lemma loadData_valid_documents_witness :
  userInfo (after (loadData no_numeric_strings PerUser)
                  (boot PerUser
                     (mkDisk (Doc [waiting "bot_7"]) (Doc (mkUserDoc JNull (JStr ""))))
                     (fun _ => false) (fun _ => 7)))
  = mkUserInfo (Num 0) (JStr "guest") /\
  botCount (after (loadData no_numeric_strings PerUser)
                  (boot PerUser
                     (mkDisk (Doc [waiting "bot_7"]) (Doc (mkUserDoc JNull (JStr ""))))
                     (fun _ => false) (fun _ => 7)))
  = 1.
Proof.
  destruct (loadData_valid_documents no_numeric_strings PerUser
              (boot PerUser
                    (mkDisk (Doc [waiting "bot_7"]) (Doc (mkUserDoc JNull (JStr ""))))
                    (fun _ => false) (fun _ => 7))
              [waiting "bot_7"] (mkUserDoc JNull (JStr "")) eq_refl eq_refl)
    as (_ & _ & H3 & H4 & _).
  split; [exact H4 | exact H3].
Defined.

(** X4. First start, no document on disk.  [ServerA] and [PerUser]
    create both documents with their defaults (when the two writes
    succeed) and load them: empty list, count 0, default user info.
    [ServerB] ends with the same memory ([points] reset to 0) but
    creates no document. *)
Theorem loadData_first_start :
  forall S2N v w,
    bot_data (fs w) = Missing ->
    user_data (fs w) = Missing ->
    (self_healing v ->
     write_ok w 0 = true ->
     write_ok w 1 = true ->
     outcome (loadData S2N v) w = Ok tt /\
     bots (after (loadData S2N v) w) = [] /\
     botCount (after (loadData S2N v) w) = 0 /\
     userInfo (after (loadData S2N v) w) = default_userInfo v /\
     fs (after (loadData S2N v) w) = mkDisk (Doc []) (Doc (default_user_doc v))) /\
    (v = ServerB ->
     outcome (loadData S2N v) w = Ok tt /\
     bots (after (loadData S2N v) w) = [] /\
     botCount (after (loadData S2N v) w) = 0 /\
     points (userInfo (after (loadData S2N v) w)) = Num 0 /\
     fs (after (loadData S2N v) w) = fs w).
Proof.
  intros S2N v w. unfold self_healing, outcome, after. open_world w.
  cbn [fs bot_data user_data]. intros -> ->.
  destruct v; split; intros; subst;
    try match goal with H : ?x <> ?x |- _ => destruct (H eq_refl) end;
    try discriminate;
    unfold_load; step; cbn [bot_data user_data store] in *; step;
    repeat (match goal with H : ok _ = true |- _ => rewrite H end;
            step; cbn [bot_data user_data store]; step);
    repeat split.
Qed.

Lemma loadData_first_start_witness :
  fs (after (loadData no_numeric_strings ServerA)
            (boot ServerA (mkDisk Missing Missing) (fun _ => true) (fun _ => 7)))
  = mkDisk (Doc []) (Doc (mkUserDoc (JNum 0) JUndefined)).
Proof.
  destruct (proj1 (loadData_first_start no_numeric_strings ServerA
                     (boot ServerA (mkDisk Missing Missing)
                           (fun _ => true) (fun _ => 7))
                     eq_refl eq_refl)
                  ltac:(discriminate) eq_refl eq_refl)
    as (_ & _ & _ & _ & H).
  exact H.
Defined.

(** X5. [loadData] of [ServerB] never calls [fs.writeFile]: both
    documents are left as they are.  With documents that are missing,
    unparsable or of the expected shape it returns normally, and a
    document it cannot read resets its container: an unreadable bot
    document gives the empty list and count 0, an unreadable user
    document sets [points] to 0 and leaves the rest of the user info;
    a readable document is loaded. *)
Theorem loadData_ServerB_never_writes :
  forall S2N w,
    fs (after (loadData S2N ServerB) w) = fs w /\
    fs_trace (after (loadData S2N ServerB) w) = fs_trace w /\
    (bot_data (fs w) = Missing \/ bot_data (fs w) = Corrupt ->
     bots (after (loadData S2N ServerB) w) = [] /\
     botCount (after (loadData S2N ServerB) w) = 0) /\
    (forall l,
        bot_data (fs w) = Doc l ->
        bots (after (loadData S2N ServerB) w) = l /\
        botCount (after (loadData S2N ServerB) w) = Z.of_nat (List.length l)) /\
    (user_data (fs w) = Missing \/ user_data (fs w) = Corrupt ->
     outcome (loadData S2N ServerB) w = Ok tt /\
     userInfo (after (loadData S2N ServerB) w)
     = mkUserInfo (Num 0) (info_userId (userInfo w))) /\
    (forall ud,
        user_data (fs w) = Doc ud ->
        outcome (loadData S2N ServerB) w = Ok tt /\
        userInfo (after (loadData S2N ServerB) w)
        = parsed_userInfo S2N ServerB ud).
Proof.
  intros S2N w. unfold outcome, after, parsed_userInfo. open_world w.
  cbn [fs bot_data user_data].
  destruct bd, ud0; run_load ok; repeat split; intros;
    repeat match goal with
           | H : _ \/ _ |- _ => destruct H
           | H : Doc _ = Doc _ |- _ => injection H as <-
           | H : _ = _ |- _ => discriminate H
           end;
    reflexivity.
Qed.

Lemma loadData_ServerB_never_writes_witness :
  bots (after (loadData no_numeric_strings ServerB)
              (set_fs (mkDisk Corrupt Corrupt) [] (one_bot (fun _ => true))))
  = [] /\
  userInfo (after (loadData no_numeric_strings ServerB)
                  (set_points (Num 40)
                     (boot ServerB (mkDisk (Doc []) Corrupt)
                           (fun _ => true) (fun _ => 7))))
  = mkUserInfo (Num 0) JUndefined.
Proof.
  split.
  - exact (proj1 (proj1 (proj2 (proj2 (loadData_ServerB_never_writes
                                         no_numeric_strings
                                         (set_fs (mkDisk Corrupt Corrupt) []
                                                 (one_bot (fun _ => true))))))
                        (or_intror eq_refl))).
  - exact (proj2 (proj1 (proj2 (proj2 (proj2 (proj2
                    (loadData_ServerB_never_writes
                       no_numeric_strings
                       (set_points (Num 40)
                          (boot ServerB (mkDisk (Doc []) Corrupt)
                                (fun _ => true) (fun _ => 7))))))))
                        (or_intror eq_refl))).
Defined.

(** X6. [loadData] of [ServerA] and [PerUser] calls [fs.writeFile] at
    most twice; it returns normally when those calls succeed, and when
    it throws, what it throws is the failure of the last call it made,
    logged as "Error initializing data files". *)
Theorem loadData_fatal_only_on_write_failure :
  forall S2N v w,
    self_healing v ->
    (write_ok w 0 = true -> write_ok w 1 = true ->
     outcome (loadData S2N v) w = Ok tt) /\
    (List.length (fs_trace (after (loadData S2N v) w))
     <= 2 + List.length (fs_trace w))%nat /\
    (forall e,
        outcome (loadData S2N v) w = Throw e ->
        exists t c lines,
          fs_trace (after (loadData S2N v) w) = t ++ [mkWrite c false] /\
          e = WriteFailed (path_of c) /\
          console (after (loadData S2N v) w)
          = lines ++ [LogError "Error initializing data files: " (Some e)]).
Proof.
  intros S2N v w Hv. unfold self_healing, outcome, after in *. open_world w.
  split; [|split].
  - intros F G.
    destruct v; try (destruct (Hv eq_refl)); destruct bd, ud0;
      unfold_load; step; cbn [bot_data user_data store] in *; step;
      repeat (match goal with H : ok _ = true |- _ => rewrite H end;
              step; cbn [bot_data user_data store]; step);
      reflexivity.
  - destruct v; try (destruct (Hv eq_refl)); destruct bd, ud0; run_load ok;
      rewrite ?length_app; cbn [List.length]; lia.
  - intros e.
    destruct v; try (destruct (Hv eq_refl)); destruct bd, ud0; run_load ok;
      intros [= <-]; do 3 eexists; (split; [reflexivity|split; reflexivity]).
Qed.

Lemma loadData_fatal_only_on_write_failure_witness :
  outcome (loadData no_numeric_strings ServerA)
          (boot ServerA (mkDisk Corrupt Missing) (fun _ => true) (fun _ => 7))
  = Ok tt.
Proof.
  apply (proj1 (loadData_fatal_only_on_write_failure no_numeric_strings ServerA
                  (boot ServerA (mkDisk Corrupt Missing) (fun _ => true) (fun _ => 7))
                  ltac:(discriminate)));
    reflexivity.
Defined.

(** ** Start-up of the process *)

Lemma isNaN_num_or_zero x : isNaN (num_or_zero x) = false.
Proof. destruct x as [z|]; cbn; [destruct (z =? 0)|]; reflexivity. Qed.

(** X7. For documents that are missing, unparsable or of the expected
    shape (an array of records, an object): when [ServerA] or [PerUser]
    comes to listen, the bot document on disk holds exactly the list in
    memory, [botCount] is its length, the user document exists and the
    user info in memory is what that document parses to; in particular
    [points] is a number.  When the process exits instead, it exits with
    status 1 and the last console entry is the "Failed to initialize
    server:" error.  (A user document that parses to [null] or to a
    primitive is outside this statement.) *)
Theorem startServer_listening_state :
  forall S2N v w,
    self_healing v ->
    (forall w',
        startServer S2N v w = Listening w' ->
        bot_data (fs w') = Doc (bots w') /\
        count_matches w' /\
        (exists d,
            user_data (fs w') = Doc d /\
            userInfo w' = parsed_userInfo S2N v d) /\
        isNaN (points (userInfo w')) = false) /\
    (forall c w',
        startServer S2N v w = Exited c w' ->
        c = 1 /\
        exists e lines,
          outcome (loadData S2N v) w = Throw e /\
          console w'
          = lines ++ [LogError "Failed to initialize server:" (Some e)]).
Proof.
  intros S2N v w Hv. unfold self_healing, startServer, count_matches, outcome, after in *.
  open_world w. split.
  - intros w'.
    destruct v; try (destruct (Hv eq_refl)); destruct bd, ud0; run_load ok;
      try discriminate; intros [= <-]; step; cbn [bot_data user_data];
      (split; [reflexivity|]); (split; [reflexivity|]);
      (split; [eexists; split; reflexivity|]);
      try reflexivity; apply isNaN_num_or_zero.
  - intros c w'.
    destruct v; try (destruct (Hv eq_refl)); destruct bd, ud0; run_load ok;
      try discriminate; intros [= <- <-]; step;
      (split; [reflexivity|]); do 2 eexists; split; reflexivity.
Qed.

Lemma startServer_listening_state_witness :
  count_matches
    (after (console_log "Backend running on port 3001")
           (after (loadData no_numeric_strings PerUser)
                  (boot PerUser (mkDisk Corrupt Missing)
                        (fun _ => true) (fun _ => 7)))).
Proof.
  assert (E : startServer no_numeric_strings PerUser
                (boot PerUser (mkDisk Corrupt Missing) (fun _ => true) (fun _ => 7))
              = Listening
                  (after (console_log "Backend running on port 3001")
                         (after (loadData no_numeric_strings PerUser)
                                (boot PerUser (mkDisk Corrupt Missing)
                                      (fun _ => true) (fun _ => 7)))))
    by (vm_compute; reflexivity).
  exact (proj1 (proj2 (proj1 (startServer_listening_state no_numeric_strings PerUser
                                (boot PerUser (mkDisk Corrupt Missing)
                                      (fun _ => true) (fun _ => 7))
                                ltac:(discriminate))
                             _ E))).
Defined.

(** ** What one createBot request does *)

(** The five ways through the handler: what is answered, which files
    were written with what success, and what became of the memory. *)
Lemma createBot_paths v req w :
  exists ext,
    fs_trace (after (createBot v req) w) = fs_trace w ++ ext /\
    clock (after (createBot v req) w) = clock w /\
    fs_ok (after (createBot v req) w) = fs_ok w /\
    ((first_rejection v w req <> None /\
      status_code (outcome (createBot v req) w) = Some 400 /\
      write_kinds ext = [] /\
      after (createBot v req) w = logged_attempt v req w) \/
     (validated v w req /\
      status_code (outcome (createBot v req) w) = Some 500 /\
      write_kinds ext = [(user_data_json, false)] /\
      bots (after (createBot v req) w) = bots w /\
      botCount (after (createBot v req) w) = botCount w /\
      userInfo (after (createBot v req) w) = userInfo w /\
      fs (after (createBot v req) w) = fs w) \/
     (validated v w req /\
      outcome (createBot v req) w
      = Ok (mkResponse 200 (CreatedBody (created_message (built_bot v req w))
                                        (built_bot v req w))) /\
      write_kinds ext = [(user_data_json, true); (bot_data_json, true)] /\
      bots (after (createBot v req) w) = bots w ++ [built_bot v req w] /\
      botCount (after (createBot v req) w) = botCount w + 1 /\
      userInfo (after (createBot v req) w)
      = mkUserInfo (num_sub (points (userInfo w)) 250) (info_userId (userInfo w)) /\
      fs (after (createBot v req) w)
      = mkDisk (Doc (bots w ++ [built_bot v req w])) (Doc (deducted_doc v w))) \/
     (validated v w req /\
      status_code (outcome (createBot v req) w) = Some 500 /\
      write_kinds ext
      = [(user_data_json, true); (bot_data_json, false); (user_data_json, true)] /\
      bots (after (createBot v req) w) = bots w /\
      botCount (after (createBot v req) w) = botCount w /\
      userInfo (after (createBot v req) w) = userInfo w /\
      fs (after (createBot v req) w)
      = mkDisk (bot_data (fs w)) (Doc (user_json v (userInfo w)))) \/
     (validated v w req /\
      status_code (outcome (createBot v req) w) = None /\
      write_kinds ext
      = [(user_data_json, true); (bot_data_json, false); (user_data_json, false)] /\
      bots (after (createBot v req) w) = bots w /\
      botCount (after (createBot v req) w) = botCount w /\
      userInfo (after (createBot v req) w) = userInfo w /\
      fs (after (createBot v req) w)
      = mkDisk (bot_data (fs w)) (Doc (deducted_doc v w)))).
Proof.
  unfold after, outcome, deducted_doc, built_bot.
  destruct (first_rejection v w req) as [c|] eqn:E.
  - rewrite (createBot_rejected _ _ _ _ E). cbn [fst snd].
    exists []. rewrite app_nil_r. repeat split. left. repeat split. discriminate.
  - pose proof E as V. enter E w.
    destruct (ok (List.length tr)) eqn:F; step.
    + destruct (ok (S (List.length tr))) eqn:G; step.
      * eexists. rewrite <- app_assoc. split; [reflexivity|].
        split; [reflexivity|]. split; [reflexivity|].
        right. right. left. cbn [store bot_data user_data]. repeat split. exact V.
      * rewrite removelast_last, Z.add_simpl_r.
        destruct (ok (S (S (List.length tr)))) eqn:K; step;
          eexists; rewrite <- !app_assoc;
          (split; [reflexivity|]); (split; [reflexivity|]);
          (split; [reflexivity|]); right; right; right; [left|right];
          cbn [store bot_data user_data]; repeat split; exact V.
    + eexists. split; [reflexivity|]. split; [reflexivity|]. split; [reflexivity|].
      right. left. repeat split. exact V.
Qed.

(** What passing the balance check says about the balance. *)
Lemma validated_balance v w req :
  validated v w req -> exists z, points (userInfo w) = Num z /\ 250 <= z.
Proof.
  intros V. destruct (validated_inv _ _ _ V) as (_ & _ & _ & _ & H).
  destruct (points (userInfo w)) as [z|]; cbn in H; [|discriminate].
  exists z. split; [reflexivity|]. rewrite orb_false_r in H.
  apply Z.ltb_ge in H. exact H.
Qed.

(** X8. A createBot request ends in one of five ways, each with its own
    pattern of file writes: 400 with no write; 500 after the one failed
    write of the user document; 200 after the user document and then
    the bot document were written; 500 after the bot write failed and
    the user document was written again; or no response at all after
    that second user write failed as well.  The bot document is never
    written before the user document was, and never more than once. *)
Theorem createBot_response_and_writes :
  forall v req w,
    exists ext,
      fs_trace (after (createBot v req) w) = fs_trace w ++ ext /\
      In (status_code (outcome (createBot v req) w), write_kinds ext)
         [(Some 400, []);
          (Some 500, [(user_data_json, false)]);
          (Some 200, [(user_data_json, true); (bot_data_json, true)]);
          (Some 500, [(user_data_json, true); (bot_data_json, false);
                      (user_data_json, true)]);
          (None, [(user_data_json, true); (bot_data_json, false);
                  (user_data_json, false)])].
Proof.
  intros v req w.
  destruct (createBot_paths v req w)
    as (ext & Ht & _ & _ &
        [(_ & Hs & Hk & _)|[(_ & Hs & Hk & _)|[(_ & Hs & Hk & _)|
         [(_ & Hs & Hk & _)|(_ & Hs & Hk & _)]]]]);
    exists ext; (split; [exact Ht|]); rewrite Hk, Hs; cbn [In status_code code];
    repeat (first [left; reflexivity | right]).
Qed.

(** X9. Disk and memory stay in step: if both documents held the
    memory's content before a createBot request and the request is
    answered (with any status), they hold the memory's content
    afterwards; after a 200 they do so whatever the disk held before. *)
Theorem createBot_keeps_synced :
  forall v req w r,
    outcome (createBot v req) w = Ok r ->
    (synced v w -> synced v (after (createBot v req) w)) /\
    (code r = 200 -> synced v (after (createBot v req) w)).
Proof.
  intros v req w r Hr. unfold synced.
  destruct (createBot_paths v req w)
    as (ext & _ & _ & _ &
        [(_ & Hs & _ & Hw)|[(_ & Hs & _ & Hb & _ & Hu & Hf)|
         [(_ & Hs & _ & Hb & _ & Hu & Hf)|
          [(_ & Hs & _ & Hb & _ & Hu & Hf)|(_ & Hs & _)]]]]);
    rewrite Hr in Hs; cbn [status_code] in Hs; try discriminate.
  - rewrite Hw. split; [auto|]. intros H. congruence.
  - rewrite Hb, Hu, Hf. split; [auto|]. intros H. congruence.
  - rewrite Hb, Hu, Hf. unfold deducted_doc. cbn [bot_data user_data].
    split; intros _; split; reflexivity.
  - rewrite Hb, Hu, Hf. cbn [bot_data user_data]. split.
    + intros (H1 & _). split; [exact H1|reflexivity].
    + intros H. congruence.
Qed.

Lemma createBot_keeps_synced_witness :
  synced PerUser (after (createBot PerUser alice)
                        (funded PerUser 300 (fun _ => true) (fun _ => 7))) /\
  user_json PerUser
    (userInfo (after (createBot PerUser alice)
                     (funded PerUser 300 (fun _ => true) (fun _ => 7))))
  = mkUserDoc (JNum 50) (JStr "guest").
Proof.
  split; [|vm_compute; reflexivity].
  assert (E : outcome (createBot PerUser alice)
                      (funded PerUser 300 (fun _ => true) (fun _ => 7))
              = Ok (mkResponse 200
                      (CreatedBody
                         (created_message
                            (built_bot PerUser alice
                               (funded PerUser 300 (fun _ => true) (fun _ => 7))))
                         (built_bot PerUser alice
                            (funded PerUser 300 (fun _ => true) (fun _ => 7))))))
    by (vm_compute; reflexivity).
  exact (proj2 (createBot_keeps_synced PerUser alice
                  (funded PerUser 300 (fun _ => true) (fun _ => 7)) _ E)
               eq_refl).
Defined.

(** ** Restart *)




(** ** Sequences of createBot requests *)

(** One request either leaves list, count and user info as they were,
    or passes the checks and appends the record it built, at the price
    of 250 points. *)
Lemma createBot_memory_effect v req w :
  clock (after (createBot v req) w) = clock w /\
  ((bots (after (createBot v req) w) = bots w /\
    botCount (after (createBot v req) w) = botCount w /\
    userInfo (after (createBot v req) w) = userInfo w) \/
   (validated v w req /\
    bots (after (createBot v req) w) = bots w ++ [built_bot v req w] /\
    botCount (after (createBot v req) w) = botCount w + 1 /\
    userInfo (after (createBot v req) w)
    = mkUserInfo (num_sub (points (userInfo w)) 250) (info_userId (userInfo w)))).
Proof.
  destruct (createBot_paths v req w)
    as (ext & _ & Hc & _ &
        [(_ & _ & _ & Hw)|[(_ & _ & _ & Hb & Hn & Hu & _)|
         [(V & _ & _ & Hb & Hn & Hu & _)|
          [(_ & _ & _ & Hb & Hn & Hu & _)|(_ & _ & _ & Hb & Hn & Hu & _)]]]]);
    (split; [exact Hc|]); auto.
  left. rewrite Hw. repeat split.
Qed.

(** A numeric balance stays numeric. *)
Lemma run_points_numeric v reqs : forall w,
  isNaN (points (userInfo w)) = false ->
  isNaN (points (userInfo (run v reqs w))) = false.
Proof.
  unfold run. induction reqs as [|r reqs IH]; intros w H; cbn [fold_left].
  - exact H.
  - apply IH.
    destruct (createBot_memory_effect v r w) as (_ & [(_ & _ & ->)|(_ & _ & _ & ->)]).
    + exact H.
    + cbn [points]. destruct (points (userInfo w)); [reflexivity|discriminate].
Qed.

(** X11. Every record costs 250 points: for a balance below [2^53]
    (where the subtraction of doubles is exact), after any sequence of
    createBot requests the balance is the balance before minus 250
    times the number of records the list has gained, and a balance that
    was not negative never becomes negative; the list never gets
    shorter, whatever the balance. *)
Theorem run_points_accounting :
  forall v reqs w z,
    points (userInfo w) = Num z ->
    (List.length (bots w) <= List.length (bots (run v reqs w)))%nat /\
    (z < 2 ^ 53 ->
     points (userInfo (run v reqs w))
     = Num (z - 250 * (Z.of_nat (List.length (bots (run v reqs w)))
                       - Z.of_nat (List.length (bots w)))) /\
     (0 <= z ->
      0 <= z - 250 * (Z.of_nat (List.length (bots (run v reqs w)))
                      - Z.of_nat (List.length (bots w))))).
Proof.
  intros v reqs. unfold run.
  induction reqs as [|r reqs IH]; intros w z Hz; cbn [fold_left].
  - rewrite Hz. split; [lia|]. intros _. split; [f_equal; lia|lia].
  - destruct (createBot_memory_effect v r w)
      as (_ & [(Hb & _ & Hu)|(V & Hb & _ & Hu)]).
    + assert (Hz1 : points (userInfo (after (createBot v r) w)) = Num z)
        by (rewrite Hu; exact Hz).
      destruct (IH _ _ Hz1) as (H1 & H2). rewrite Hb in *. auto.
    + destruct (validated_balance _ _ _ V) as (z0 & Hz0 & Hge).
      rewrite Hz in Hz0. injection Hz0 as <-.
      assert (Hz1 : points (userInfo (after (createBot v r) w))
                    = Num (round_double (z - 250)))
        by (rewrite Hu, Hz; reflexivity).
      destruct (IH _ _ Hz1) as (H1 & H2).
      rewrite Hb, last_length in *.
      split; [lia|]. intros Hlt.
      assert (Hs : round_double (z - 250) = z - 250)
        by (apply round_double_safe; unfold safe_integer; lia).
      rewrite Hs in H2.
      destruct (H2 ltac:(lia)) as (H3 & H4).
      split; [rewrite H3; f_equal; lia|].
      intros _. assert (H : 0 <= z - 250) by lia.
      specialize (H4 H). lia.
Qed.

Lemma run_points_accounting_witness :
  points (userInfo (run ServerA [alice; alice; alice]
                        (funded ServerA 600 (fun _ => true) ticking_clock)))
  = Num (600 - 250 * (Z.of_nat
                        (List.length
                           (bots (run ServerA [alice; alice; alice]
                                      (funded ServerA 600 (fun _ => true)
                                              ticking_clock))))
                      - Z.of_nat 0)).
Proof.
  exact (proj1 (proj2 (run_points_accounting ServerA [alice; alice; alice]
                         (funded ServerA 600 (fun _ => true) ticking_clock)
                         600 eq_refl)
                      eq_refl)).
Defined.

Lemma built_bot_fresh v req w :
  validated v w req -> fresh_record (built_bot v req w).
Proof.
  intros V. destruct (validated_inv _ _ _ V) as (_ & Hn & _).
  repeat split. exact Hn.
Qed.

(** A property of records that every built record has holds for the
    whole list after a sequence of requests. *)
Lemma run_keeps_forall v (P : bot -> Prop) reqs :
  (forall req w, validated v w req -> P (built_bot v req w)) ->
  forall w, Forall P (bots w) -> Forall P (bots (run v reqs w)).
Proof.
  intros HP. unfold run.
  induction reqs as [|r reqs IH]; intros w H; cbn [fold_left].
  - exact H.
  - apply IH.
    destruct (createBot_memory_effect v r w) as (_ & [(-> & _)|(V & -> & _)]).
    + exact H.
    + apply Forall_app. split; [exact H|]. constructor; [|constructor].
      apply HP, V.
Qed.

(** X12. createBot only ever appends: after any sequence of requests
    the list is the old list followed by the records created, the count
    has grown by their number, and each of them is private, waiting for
    verification, with a truthy username; its [userId] is truthy in
    [PerUser] and absent in the single-user servers. *)
Theorem run_appends_only :
  forall v reqs w,
    exists created,
      bots (run v reqs w) = bots w ++ created /\
      botCount (run v reqs w) = botCount w + Z.of_nat (List.length created) /\
      Forall fresh_record created /\
      Forall (fun b => match v with
                       | PerUser => truthy (userId b) = true
                       | _ => userId b = JUndefined
                       end) created.
Proof.
  intros v reqs. unfold run.
  induction reqs as [|r reqs IH]; intros w; cbn [fold_left].
  - exists []. rewrite app_nil_r. repeat split; auto; cbn; lia.
  - destruct (IH (after (createBot v r) w)) as (l & Hb & Hn & Hf & Hu).
    destruct (createBot_memory_effect v r w)
      as (_ & [(Eb & En & _)|(V & Eb & En & _)]).
    + exists l. rewrite Hb, Hn, Eb, En. auto.
    + exists (built_bot v r w :: l).
      rewrite Hb, Hn, Eb, En, <- app_assoc. cbn [app List.length].
      split; [reflexivity|]. split; [lia|].
      split; constructor; auto.
      * apply built_bot_fresh, V.
      * destruct v; cbn [built_bot userId]; try reflexivity.
        unfold js_or. destruct (truthy (req_userId r)) eqn:E; [exact E|reflexivity].
Qed.

(** X13. With a clock that never goes backwards, every record created
    by a sequence of requests has its [verificationDeadline] at least 24
    hours after its [createdAt], and the time in its id is not later
    than its [createdAt] (the three come from three successive readings
    of the clock). *)
Theorem run_deadlines :
  forall v reqs w,
    monotone (clock w) ->
    exists created,
      bots (run v reqs w) = bots w ++ created /\
      Forall (fun b =>
                createdAt b + day <= verificationDeadline b /\
                exists t, id b = bot_id t /\ t <= createdAt b) created.
Proof.
  intros v reqs. unfold run.
  induction reqs as [|r reqs IH]; intros w Hm; cbn [fold_left].
  - exists []. rewrite app_nil_r. auto.
  - destruct (createBot_memory_effect v r w) as (Hc & Hcase).
    assert (Hm1 : monotone (clock (after (createBot v r) w)))
      by (rewrite Hc; exact Hm).
    destruct (IH _ Hm1) as (l & Hb & Hf).
    destruct Hcase as [(Eb & _)|(_ & Eb & _)].
    + exists l. rewrite Hb, Eb. auto.
    + exists (built_bot v r w :: l). rewrite Hb, Eb, <- app_assoc.
      split; [reflexivity|]. constructor; [|exact Hf].
      cbn [built_bot createdAt verificationDeadline id]. unfold day. split.
      * pose proof (Hm (S (clock_reads w)) (S (S (clock_reads w)))). lia.
      * eexists. split; [reflexivity|]. apply Hm. lia.
Qed.

Lemma run_deadlines_witness :
  exists created,
    bots (run ServerA [alice; alice] (funded ServerA 600 (fun _ => true) coarse_clock))
    = [] ++ created /\
    Forall (fun b => createdAt b + day <= verificationDeadline b /\
                     exists t, id b = bot_id t /\ t <= createdAt b) created.
Proof.
  apply (run_deadlines ServerA [alice; alice]
           (funded ServerA 600 (fun _ => true) coarse_clock)).
  intros i j Hij. cbn [funded boot set_points set_userInfo clock]. unfold coarse_clock.
  apply Zplus_le_compat_l, Nat2Z.inj_le, Nat.Div0.div_le_mono, Hij.
Defined.

(** ** Which errors can be returned *)

(** The error messages tell the checks apart. *)
Lemma createBot_error_names_check v req w c :
  outcome (createBot v req) w = Ok (bad_request (error_of v w c)) ->
  first_rejection v w req = Some c.
Proof.
  intros H. destruct (first_rejection v w req) as [c'|] eqn:E.
  - unfold outcome in H. rewrite (createBot_rejected _ _ _ _ E) in H.
    cbn [fst] in H. f_equal.
    destruct c, c'; try reflexivity; exfalso; destruct v;
      cbv [error_of err_private err_username err_maxBots err_maxPrivate
           err_points bad_request] in H;
      cbn [String.append] in H; discriminate.
  - exfalso.
    destruct (createBot_paths v req w)
      as (ext & _ & _ & _ &
          [(N & _)|[(_ & Hs & _)|[(_ & Hs & _)|[(_ & Hs & _)|(_ & Hs & _)]]]]);
      [apply N, E| | | |]; rewrite H in Hs; discriminate.
Qed.

Lemma first_rejection_rejects v w req c :
  first_rejection v w req = Some c -> rejects v w req c = true.
Proof.
  intros H. destruct (find_first _ _ _ H) as (_ & _ & _ & Hc & _). exact Hc.
Qed.

Lemma all_private l :
  Forall (fun b => isPrivate b = true) l -> privateBots l = l.
Proof.
  unfold privateBots. induction 1 as [|b l Hb _ IH]; cbn [filter].
  - reflexivity.
  - rewrite Hb, IH. reflexivity.
Qed.

(** X14. In the single-user servers the limit of 20 is never reached
    when every stored record is private and there are at most five of
    them (as after a start on an empty list): after any sequence of
    requests the count is at most 5, the capacity check accepts, and
    no request is answered "Maximum bot limit (20) reached!". *)
Theorem single_user_capacity_unreachable :
  forall v reqs w req,
    v <> PerUser ->
    count_matches w ->
    Forall (fun b => isPrivate b = true) (bots w) ->
    (List.length (bots w) <= maxPrivateBots)%nat ->
    botCount (run v reqs w) <= Z.of_nat maxPrivateBots /\
    rejects v (run v reqs w) req GlobalCapacity = false /\
    outcome (createBot v req) (run v reqs w) <> Ok (bad_request err_maxBots).
Proof.
  intros v reqs w req Hv Hc Hp Hl.
  assert (Hc' : count_matches (run v reqs w)) by (apply run_count_matches, Hc).
  assert (Hp' : Forall (fun b => isPrivate b = true) (bots (run v reqs w))).
  { apply run_keeps_forall; [|exact Hp]. intros r0 w0 _. reflexivity. }
  assert (Hq : (List.length (privateBots (bots (run v reqs w)))
                <= maxPrivateBots)%nat).
  { apply run_global_quota; [exact Hv|]. rewrite (all_private _ Hp). exact Hl. }
  rewrite (all_private _ Hp') in Hq.
  assert (Hn : botCount (run v reqs w) <= Z.of_nat maxPrivateBots)
    by (rewrite Hc'; lia).
  assert (Hr : rejects v (run v reqs w) req GlobalCapacity = false).
  { cbn [rejects]. apply Z.leb_gt. unfold maxBots, maxPrivateBots in *. lia. }
  split; [exact Hn|]. split; [exact Hr|].
  intros H.
  pose proof (createBot_error_names_check v req (run v reqs w) GlobalCapacity H) as E.
  apply first_rejection_rejects in E. congruence.
Qed.

Lemma single_user_capacity_unreachable_witness :
  outcome (createBot ServerB alice)
          (run ServerB (repeat alice 30)
               (funded ServerB 9000 (fun _ => true) ticking_clock))
  <> Ok (bad_request err_maxBots).
Proof.
  apply (single_user_capacity_unreachable ServerB (repeat alice 30)
           (funded ServerB 9000 (fun _ => true) ticking_clock) alice).
  - discriminate.
  - reflexivity.
  - constructor.
  - cbn. unfold maxPrivateBots. lia.
Defined.

Lemma falsy_never_identical a u :
  truthy a = true -> truthy u = false -> strict_eq a u = false.
Proof.
  intros Ha Hu. destruct (strict_eq a u) eqn:E; [|reflexivity].
  apply strict_eq_true in E. subst. congruence.
Qed.

(** X15. In [PerUser] the quota never stops a request without a usable
    [userId]: when every stored record has a truthy [userId] (as after
    a start on an empty list), then after any sequence of requests a
    request whose [userId] is absent or falsy passes the quota check
    and is never answered "Maximum private bot limit (5) reached for
    this user!", however many records "guest" already owns. *)
Theorem unnamed_requests_escape_quota :
  forall reqs w req,
    Forall (fun b => truthy (userId b) = true) (bots w) ->
    truthy (req_userId req) = false ->
    userPrivateBots (req_userId req) (bots (run PerUser reqs w)) = [] /\
    rejects PerUser (run PerUser reqs w) req PrivateQuota = false /\
    outcome (createBot PerUser req) (run PerUser reqs w)
    <> Ok (bad_request (err_maxPrivate PerUser)).
Proof.
  intros reqs w req Hw Hu.
  assert (Ht : Forall (fun b => truthy (userId b) = true)
                      (bots (run PerUser reqs w))).
  { apply run_keeps_forall; [|exact Hw]. intros r0 w0 _.
    cbn [built_bot userId]. unfold js_or.
    destruct (truthy (req_userId r0)) eqn:E; [exact E|reflexivity]. }
  assert (He : userPrivateBots (req_userId req) (bots (run PerUser reqs w)) = []).
  { unfold userPrivateBots. induction Ht as [|b l Hb _ IH]; cbn [filter].
    - reflexivity.
    - rewrite (falsy_never_identical _ _ Hb Hu), andb_false_r. exact IH. }
  assert (Hr : rejects PerUser (run PerUser reqs w) req PrivateQuota = false)
    by (cbn [rejects]; rewrite He; reflexivity).
  split; [exact He|]. split; [exact Hr|].
  intros H.
  pose proof (createBot_error_names_check PerUser req (run PerUser reqs w)
                PrivateQuota H) as E.
  apply first_rejection_rejects in E. congruence.
Qed.

Lemma unnamed_requests_escape_quota_witness :
  rejects PerUser
          (run PerUser (repeat alice 8)
               (funded PerUser 9000 (fun _ => true) ticking_clock))
          (mkRequest (JStr "bob") (JBool true) (JStr ""))
          PrivateQuota
  = false.
Proof.
  apply (unnamed_requests_escape_quota (repeat alice 8)
           (funded PerUser 9000 (fun _ => true) ticking_clock)
           (mkRequest (JStr "bob") (JBool true) (JStr ""))).
  - constructor.
  - reflexivity.
Defined.

(** ** Sessions of [PerUser]: creations and verifications mixed *)

(** What one call does to the list and the count. *)
Lemma handle_effect c w :
  (bots (handle c w) = bots w /\ botCount (handle c w) = botCount w) \/
  (exists b,
      fresh_record b /\
      bots (handle c w) = bots w ++ [b] /\
      botCount (handle c w) = botCount w + 1 /\
      botCount w < maxBots) \/
  (exists botId i b,
      find_ref (has_id botId) (bots w) = Some i /\
      nth_error (bots w) i = Some b /\
      bots (handle c w) = assign i (set_status "Verified") (bots w) /\
      botCount (handle c w) = botCount w).
Proof.
  destruct c as [req|botId| |]; cbn [handle].
  - destruct (createBot_memory_effect PerUser req w)
      as (_ & [(Hb & Hn & _)|(V & Hb & Hn & _)]).
    + left. auto.
    + right. left. exists (built_bot PerUser req w).
      split; [apply built_bot_fresh, V|]. split; [exact Hb|]. split; [exact Hn|].
      destruct (validated_inv _ _ _ V) as (_ & _ & Hcap & _).
      rewrite geb_leb in Hcap. apply Z.leb_gt in Hcap. exact Hcap.
  - unfold after. destruct (find_ref (has_id botId) (bots w)) as [i|] eqn:F.
    + destruct (find_ref_Some _ _ _ F) as (b & Hb & _).
      right. right. exists botId, i, b.
      rewrite (verifyBot_present _ _ _ _ F Hb).
      destruct (write_ok w 0); repeat split; auto.
    + left. rewrite (verifyBot_absent _ _ F). auto.
  - left. auto.
  - left. auto.
Qed.

Lemma evolved_refl b : evolved b b.
Proof. repeat split; auto. Qed.

Lemma evolved_trans a b c : evolved a b -> evolved b c -> evolved a c.
Proof.
  intros ((A1 & A2 & A3 & A4 & A5 & A6) & As) ((B1 & B2 & B3 & B4 & B5 & B6) & Bs).
  repeat split; try congruence.
  destruct Bs as [Bs|Bs]; [rewrite Bs; exact As|right; exact Bs].
Qed.

Lemma evolved_verified b : evolved b (set_status "Verified" b).
Proof. repeat split; auto. Qed.

Lemma handle_evolves c w k b :
  nth_error (bots w) k = Some b ->
  exists b', nth_error (bots (handle c w)) k = Some b' /\ evolved b b'.
Proof.
  intros Hk.
  destruct (handle_effect c w)
    as [(-> & _)|[(x & _ & -> & _)|(botId & i & bi & _ & Hi & -> & _)]].
  - exists b. split; [exact Hk|apply evolved_refl].
  - exists b. split; [|apply evolved_refl].
    rewrite nth_error_app1; [exact Hk|]. apply nth_error_Some. congruence.
  - destruct (Nat.eq_dec k i) as [->|Hne].
    + rewrite Hi in Hk. injection Hk as ->.
      exists (set_status "Verified" b).
      split; [apply nth_error_assign_same, Hi|apply evolved_verified].
    + exists b. split; [|apply evolved_refl].
      rewrite nth_error_assign_other; [exact Hk|exact Hne].
Qed.

(** X16. Records are never removed, moved or rewritten: whatever calls
    [PerUser] serves, a record stays at its position with the same id,
    username, creation time, deadline, private flag and owner; only its
    status can change, and only to "Verified", so that a verified
    record stays verified. *)
Theorem session_records_immutable :
  forall calls w k b,
    nth_error (bots w) k = Some b ->
    exists b',
      nth_error (bots (session calls w)) k = Some b' /\
      same_record b b' /\
      (status b' = status b \/ status b' = "Verified") /\
      (status b = "Verified" -> status b' = "Verified").
Proof.
  intros calls. unfold session.
  assert (G : forall w k b,
             nth_error (bots w) k = Some b ->
             exists b',
               nth_error (bots (fold_left (fun w c => handle c w) calls w)) k
               = Some b' /\ evolved b b').
  { induction calls as [|c calls IH]; intros w k b Hk; cbn [fold_left].
    - exists b. split; [exact Hk|apply evolved_refl].
    - destruct (handle_evolves c w k b Hk) as (b1 & H1 & E1).
      destruct (IH _ _ _ H1) as (b2 & H2 & E2).
      exists b2. split; [exact H2|]. eapply evolved_trans; eassumption. }
  intros w k b Hk. destruct (G w k b Hk) as (b' & H & (Hs & Hst)).
  exists b'. repeat split; try apply Hs; auto.
  intros Hv. destruct Hst as [Hst|Hst]; congruence.
Qed.

Lemma session_records_immutable_witness :
  exists b',
    nth_error (bots (session [PostVerify "bot_7"; PostBots alice; PostVerify "bot_7"]
                             (one_bot (fun _ => true)))) 0
    = Some b' /\
    same_record (waiting "bot_7") b'.
Proof.
  destruct (session_records_immutable
              [PostVerify "bot_7"; PostBots alice; PostVerify "bot_7"]
              (one_bot (fun _ => true)) 0 (waiting "bot_7") eq_refl)
    as (b' & H1 & H2 & _).
  exists b'. split; assumption.
Defined.

(** One call leaves alone a record whose id an earlier record has too. *)
Lemma handle_shadowed c w i j bi bj :
  (i < j)%nat ->
  nth_error (bots w) i = Some bi ->
  nth_error (bots w) j = Some bj ->
  id bi = id bj ->
  nth_error (bots (handle c w)) j = Some bj /\
  exists bi', nth_error (bots (handle c w)) i = Some bi' /\ id bi' = id bj.
Proof.
  intros Hij Hi Hj Hid.
  destruct (handle_evolves c w i bi Hi) as (bi' & Hi' & ((Eid & _) & _)).
  split; [|exists bi'; split; [exact Hi'|congruence]].
  destruct (handle_effect c w)
    as [(-> & _)|[(x & _ & -> & _)|(botId & r & br & F & Hr & -> & _)]].
  - exact Hj.
  - rewrite nth_error_app1; [exact Hj|]. apply nth_error_Some. congruence.
  - rewrite nth_error_assign_other; [exact Hj|].
    intros ->. destruct (find_ref_Some _ _ _ F) as (b0 & Hb0 & Hp & Hmin).
    rewrite Hj in Hb0. injection Hb0 as <-.
    specialize (Hmin i bi Hij Hi). unfold has_id in *.
    rewrite Hid, Hp in Hmin. discriminate.
Qed.

(** X17. A record whose id is also the id of an earlier record can
    never be verified: [verifyBot] always finds the earlier one, so
    whatever calls are served the later record stays exactly as it
    is. *)
Theorem session_shadowed_record_untouched :
  forall calls w i j bi bj,
    (i < j)%nat ->
    nth_error (bots w) i = Some bi ->
    nth_error (bots w) j = Some bj ->
    id bi = id bj ->
    nth_error (bots (session calls w)) j = Some bj.
Proof.
  intros calls. unfold session.
  induction calls as [|c calls IH]; intros w i j bi bj Hij Hi Hj Hid;
    cbn [fold_left].
  - exact Hj.
  - destruct (handle_shadowed c w i j bi bj Hij Hi Hj Hid)
      as (Hj' & bi' & Hi' & Hid').
    exact (IH _ i j bi' bj Hij Hi' Hj' Hid').
Qed.

Lemma session_shadowed_record_untouched_witness :
  nth_error (bots (session [PostVerify "bot_7"; PostVerify "bot_7"]
                           (twins (fun _ => true)))) 1
  = Some (twin "Waiting for Verification").
Proof.
  apply (session_shadowed_record_untouched
           [PostVerify "bot_7"; PostVerify "bot_7"] (twins (fun _ => true))
           0%nat 1%nat (waiting "bot_7") (twin "Waiting for Verification")).
  - lia.
  - reflexivity.
  - reflexivity.
  - reflexivity.
Defined.

(** X18. Whatever calls [PerUser] serves, creations and verifications
    in any order and with any outcome, [botCount] stays the length of
    the list and stays within the limit of 20. *)
Theorem session_keeps_count :
  forall calls w,
    count_matches w ->
    botCount w <= maxBots ->
    count_matches (session calls w) /\ botCount (session calls w) <= maxBots.
Proof.
  intros calls. unfold session, count_matches.
  induction calls as [|c calls IH]; intros w Hc Hn; cbn [fold_left].
  - auto.
  - apply IH;
      destruct (handle_effect c w)
        as [(Hb & Hm)|[(x & _ & Hb & Hm & Hlt)|(botId & r & br & _ & _ & Hb & Hm)]];
      rewrite ?Hb, ?Hm, ?last_length, ?length_assign; lia.
Qed.

Lemma session_keeps_count_witness :
  botCount (session [PostBots alice; PostVerify "bot_7"; GetBots]
                    (one_bot (fun _ => true)))
  <= maxBots.
Proof.
  apply (session_keeps_count [PostBots alice; PostVerify "bot_7"; GetBots]
           (one_bot (fun _ => true))).
  - reflexivity.
  - unfold maxBots. cbn. lia.
Defined.

(** ** Limits *)

Lemma same_user_primitive a u :
  primitive a = true -> same_user a u = strict_eq a u.
Proof. destruct a, u; try reflexivity; discriminate. Qed.

Lemma owned_by_primitive u l :
  Forall (fun b => primitive (userId b) = true) l ->
  owned_by u l = userPrivateBots u l.
Proof.
  unfold owned_by, userPrivateBots. induction 1 as [|b l Hb _ IH]; cbn [filter].
  - reflexivity.
  - rewrite (same_user_primitive _ u Hb), IH. reflexivity.
Qed.

(** One request of a user named by a truthy primitive keeps every
    user within the quota. *)
Lemma createBot_owned_quota req w :
  truthy (req_userId req) = true ->
  primitive (req_userId req) = true ->
  Forall (fun b => primitive (userId b) = true) (bots w) ->
  (forall u, (List.length (owned_by u (bots w)) <= maxPrivateBots)%nat) ->
  Forall (fun b => primitive (userId b) = true)
         (bots (after (createBot PerUser req) w)) /\
  forall u,
    (List.length (owned_by u (bots (after (createBot PerUser req) w)))
     <= maxPrivateBots)%nat.
Proof.
  intros Ht Hp Hw H.
  destruct (createBot_memory_effect PerUser req w)
    as (_ & [(-> & _)|(V & -> & _)]); [auto|].
  assert (Eu : userId (built_bot PerUser req w) = req_userId req)
    by (cbn [built_bot userId]; unfold js_or; rewrite Ht; reflexivity).
  split.
  - apply Forall_app. split; [exact Hw|]. constructor; [|constructor].
    rewrite Eu. exact Hp.
  - intros u. unfold owned_by at 1. rewrite filter_app, length_app.
    fold (owned_by u (bots w)). cbn [filter].
    rewrite Eu. cbn [built_bot isPrivate andb].
    destruct (same_user (req_userId req) u) eqn:E; cbn [List.length].
    + rewrite (same_user_primitive _ _ Hp) in E. apply strict_eq_true in E.
      subst u. rewrite (owned_by_primitive _ _ Hw).
      destruct (validated_inv _ _ _ V) as (_ & _ & _ & Hq & _).
      apply Nat.leb_gt in Hq. lia.
    + specialize (H u). lia.
Qed.

(** X19. The limits are kept from any state that respects them: the
    count stays within 20 in all three servers; the private records
    stay within 5 in the single-user servers; and in [PerUser] every
    user stays within 5 private records as long as the stored records
    and the requests name their users by truthy primitive values (a
    non-empty string, a non-zero number, [true]).  The quota does not
    reach a request whose [userId] is an object: its check always
    accepts. *)
Theorem limits_kept :
  forall v reqs w,
    (botCount w <= maxBots -> botCount (run v reqs w) <= maxBots) /\
    (v <> PerUser ->
     (List.length (privateBots (bots w)) <= maxPrivateBots)%nat ->
     (List.length (privateBots (bots (run v reqs w))) <= maxPrivateBots)%nat) /\
    (v = PerUser ->
     Forall (fun req => truthy (req_userId req) = true /\
                        primitive (req_userId req) = true) reqs ->
     Forall (fun b => primitive (userId b) = true) (bots w) ->
     (forall u, (List.length (owned_by u (bots w)) <= maxPrivateBots)%nat) ->
     forall u,
       (List.length (owned_by u (bots (run v reqs w))) <= maxPrivateBots)%nat) /\
    (forall req,
        req_userId req = JObj ->
        rejects PerUser (run v reqs w) req PrivateQuota = false).
Proof.
  intros v reqs w. split; [apply run_capacity|]. split; [|split].
  - intros Hv. apply run_global_quota, Hv.
  - intros ->. revert w. unfold run.
    induction reqs as [|r reqs IH]; intros w Hr Hw H; cbn [fold_left].
    + exact H.
    + inversion Hr as [|? ? (Ht & Hp) Hrest]; subst.
      destruct (createBot_owned_quota r w Ht Hp Hw H) as (Hw' & H').
      apply IH; assumption.
  - intros req Hu. cbn [rejects]. rewrite Hu.
    assert (E : userPrivateBots JObj (bots (run v reqs w)) = []).
    { unfold userPrivateBots. induction (bots (run v reqs w)) as [|b l IH];
        cbn [filter]; [reflexivity|].
      replace (strict_eq (userId b) JObj) with false
        by (destruct (userId b); reflexivity).
      rewrite andb_false_r. exact IH. }
    rewrite E. reflexivity.
Qed.

Lemma limits_kept_witness :
  (List.length
     (owned_by ann
        (bots (run PerUser (repeat by_ann 7)
                   (funded PerUser 9000 (fun _ => true) ticking_clock))))
   <= maxPrivateBots)%nat.
Proof.
  apply (proj1 (proj2 (proj2 (limits_kept PerUser (repeat by_ann 7)
                                (funded PerUser 9000 (fun _ => true)
                                        ticking_clock))))
               eq_refl).
  - repeat constructor.
  - constructor.
  - intros u. cbn. unfold maxPrivateBots. lia.
Defined.

(** X20. Once [loadData] has returned normally (the user document
    being an object, whatever its [points] field holds, or unreadable),
    [points] is a number and stays one through any sequence of
    createBot requests, so the balance check only ever compares it with
    250; in [PerUser] the loaded [userId] is truthy. *)
Theorem points_stay_numeric :
  forall S2N v w reqs,
    outcome (loadData S2N v) w = Ok tt ->
    isNaN (points (userInfo (after (loadData S2N v) w))) = false /\
    isNaN (points (userInfo (run v reqs (after (loadData S2N v) w)))) = false /\
    (v = PerUser ->
     truthy (info_userId (userInfo (after (loadData S2N v) w))) = true).
Proof.
  intros S2N v w reqs Hok.
  assert (H0 : isNaN (points (userInfo (after (loadData S2N v) w))) = false /\
               (v = PerUser ->
                truthy (info_userId (userInfo (after (loadData S2N v) w))) = true)).
  { revert Hok. unfold outcome, after. open_world w.
    destruct v, bd, ud0; run_load ok; try discriminate; intros _;
      (split; [try reflexivity; apply isNaN_num_or_zero|]);
      try discriminate; intros _; try reflexivity;
      unfold js_or;
      match goal with
      | |- context [ if truthy ?x then _ else _ ] =>
          destruct (truthy x) eqn:E; [exact E|reflexivity]
      end. }
  destruct H0 as (H1 & H2). split; [exact H1|]. split; [|exact H2].
  apply run_points_numeric, H1.
Qed.

Lemma points_stay_numeric_witness :
  isNaN (points (userInfo
                   (run ServerB [alice; alice]
                        (after (loadData no_numeric_strings ServerB)
                               (boot ServerB
                                     (mkDisk Missing
                                             (Doc (mkUserDoc (JStr "many") JUndefined)))
                                     (fun _ => true) ticking_clock)))))
  = false.
Proof.
  apply (points_stay_numeric no_numeric_strings ServerB
           (boot ServerB
                 (mkDisk Missing (Doc (mkUserDoc (JStr "many") JUndefined)))
                 (fun _ => true) ticking_clock)
           [alice; alice]).
  reflexivity.
Defined.

(** ** States that accept nothing *)

Lemma exhausted_rejects v w req :
  exhausted v w -> exists c, first_rejection v w req = Some c.
Proof.
  intros H. destruct (first_rejection v w req) as [c|] eqn:E; [eauto|].
  exfalso. destruct (validated_inv _ _ _ E) as (_ & _ & Hcap & Hq & Hbal).
  apply orb_false_iff in Hbal. destruct Hbal as (Hlt & Hnan).
  destruct H as [H|[(Hv & H)|[H|H]]].
  - rewrite geb_leb in Hcap. apply Z.leb_gt in Hcap. lia.
  - destruct v; try (destruct (Hv eq_refl)); apply Nat.leb_gt in Hq; lia.
  - congruence.
  - congruence.
Qed.

(** X21. No route refills anything: once the count has reached 20, or
    (single-user servers) five private records exist, or the balance is
    below 250, every createBot request is answered 400 and the list,
    the count, the user info and both documents stay as they are, for
    any number of further requests. *)
Theorem exhausted_is_final :
  forall v reqs w req,
    exhausted v w ->
    bots (run v reqs w) = bots w /\
    botCount (run v reqs w) = botCount w /\
    userInfo (run v reqs w) = userInfo w /\
    fs (run v reqs w) = fs w /\
    fs_trace (run v reqs w) = fs_trace w /\
    status_code (outcome (createBot v req) (run v reqs w)) = Some 400.
Proof.
  intros v reqs. unfold run.
  induction reqs as [|r reqs IH]; intros w req H; cbn [fold_left].
  - repeat split. destruct (exhausted_rejects v w req H) as (c & E).
    unfold outcome. rewrite (createBot_rejected _ _ _ _ E). reflexivity.
  - destruct (exhausted_rejects v w r H) as (c & E).
    assert (Hw : after (createBot v r) w = logged_attempt v r w)
      by (unfold after; rewrite (createBot_rejected _ _ _ _ E); reflexivity).
    rewrite Hw.
    assert (H' : exhausted v (logged_attempt v r w)) by exact H.
    destruct (IH _ req H') as (H1 & H2 & H3 & H4 & H5 & H6).
    rewrite H1, H2, H3, H4, H5. repeat split. exact H6.
Qed.

Lemma exhausted_is_final_witness :
  bots (run ServerA [alice; alice; alice]
            (funded ServerA 249 (fun _ => true) ticking_clock))
  = [] /\
  points (userInfo (run ServerA [alice; alice; alice]
                        (funded ServerA 249 (fun _ => true) ticking_clock)))
  = Num 249.
Proof.
  destruct (exhausted_is_final ServerA [alice; alice; alice]
              (funded ServerA 249 (fun _ => true) ticking_clock) alice
              (or_intror (or_intror (or_introl eq_refl))))
    as (H1 & _ & H3 & _).
  split; [exact H1 | rewrite H3; reflexivity].
Defined.
